(** * LnScale: the HX711 channel driver (hx711.py)

    A shallow embedding of the driver class [Hx711] of [hx711.py] and of the
    module-level helpers it calls, followed by the properties of the
    specification that concern it.

    Conventions of the embedding.
    - Python integers are unbounded: they are [Z], and the bit operators
      [&], [|], [~], [<<] are [Z.land], [Z.lor], [Z.lnot], [Z.shiftl].
    - The attributes [gain], [dfs] and [value] hold Python numbers that are
      floats in general.  Their arithmetic depends on the interpreter (the
      MicroPython port of the Pico has single precision floats, CPython has
      double precision ones), and so does [sys.maxsize]: both are gathered in
      the class [Platform].  The instance [exact_platform] computes with
      exact rationals.
    - A method is a computation in the monad [M]: it threads the driver
      object together with the hardware ([Sys]) and either returns a value or
      raises a Python exception.
    - The two GPIO pins are the [World]: the level the data line shows at
      each successive sampling, and the chronological record of what the
      driver did to the pins and of its delays.
    - The driver is modelled sequentially: [with self.lock] has no effect on a
      single thread, and a timer callback runs as an atomic event between two
      method calls ([expire_settled_timer], [expire_data_ready_timer]).
    - Not embedded, as nothing below depends on them: [__del__],
      [wait_settled], the module's [instance_list] with [read_all], and the
      table of status descriptions. *)

From Stdlib Require Import ZArith QArith List Bool Lia.
Import ListNotations.
Open Scope Z_scope.

(** ** The interpreter *)

Class Platform : Type := {
  num : Type;                       (* the numbers held by gain, dfs, value *)
  of_int : Z -> num;                (* an int used where a number is expected *)
  num_add : num -> num -> num;      (* x + y *)
  num_sub : num -> num -> num;      (* x - y *)
  num_mul : num -> num -> num;      (* x * y *)
  num_ltb : num -> num -> bool;     (* x < y *)
  true_div : Z -> Z -> num;         (* a / b on two ints, b <> 0 *)
  py_round : num -> Z;              (* round(x), to the nearest int *)
  maxsize : Z                       (* sys.maxsize *)
}.

(** Python's [round]: to the nearest integer, a tie going to the even one. *)
Definition Qround_half_even (q : Q) : Z :=
  let n := Qnum q in
  let d := Z.pos (Qden q) in
  let f := n / d in
  let r2 := 2 * (n mod d) in
  if r2 <? d then f
  else if d <? r2 then f + 1
  else if Z.even f then f else f + 1.

Definition Qltb (x y : Q) : bool :=
  Qnum x * Z.pos (Qden y) <? Qnum y * Z.pos (Qden x).

(** Exact arithmetic, with the [sys.maxsize] of a 32-bit interpreter. *)
Definition exact_platform : Platform := {|
  num := Q;
  of_int := inject_Z;
  num_add := fun x y => Qred (Qplus x y);
  num_sub := fun x y => Qred (Qminus x y);
  num_mul := fun x y => Qred (Qmult x y);
  num_ltb := Qltb;
  true_div := fun a b => Qred (Qdiv (inject_Z a) (inject_Z b));
  py_round := Qround_half_even;
  maxsize := 2147483647
|}.

(** ** Module constants *)

Definition STATUS_NOMINAL : Z := 0.
Definition STATUS_INITIALIZING : Z := 1.
Definition STATUS_POWERED_DOWN : Z := 2.
Definition STATUS_POWERING_UP : Z := 4.
Definition STATUS_NOT_SETTLED : Z := 8.
Definition STATUS_DATA_NOT_READY : Z := 16.
Definition STATUS_DATA_READY_TIMEOUT : Z := 32.
Definition STATUS_NO_DATA : Z := 64.
Definition STATUS_DOUT_STUCK_LOW : Z := 128.
Definition STATUS_ZEROING : Z := 256.
Definition STATUS_OUT_OF_RANGE : Z := 512.

Definition UPDATE_FREQ : Z := 10.

Definition MAX_RAW : Z := 0x7fffff.
Definition MIN_RAW : Z := - 0x800000.
Definition EXTEND_SIGN : Z := 0x1000000.

Definition GAIN_128 : Z := 0.
Definition GAIN_64 : Z := 2.
Definition GAIN_32 : Z := 1.

Definition SETTLING_TIME : Z := 400.

(** ** Hardware, timers and exceptions *)

Inductive event : Type :=
| ClockSet (level : bool)     (* self.clock(level) *)
| DataGet (level : bool)      (* self.data() returned level *)
| SleepUs (us : Z)            (* time.sleep_us(us) *)
| SleepMs (ms : Z).           (* time.sleep_ms(ms) *)

(** [dout k] is the level of the data line at the k-th sampling of the pin
    (counted from 0), [sampled] the number of samplings so far, [trace] what
    happened on the pins, the most recent event first. *)
Record World : Type := mkWorld {
  dout : nat -> bool;
  sampled : nat;
  trace : list event
}.

Inductive callback : Type := SettledTimeout | DataReadyTimeout.

(** A [machine.Timer] object in ONE_SHOT mode.  [armed] is true from its
    creation until it expires or is stopped by [deinit]. *)
Record Timer : Type := mkTimer {
  period : Z;
  on_expiry : callback;
  armed : bool
}.

Definition deinit (t : Timer) : Timer :=
  {| period := period t; on_expiry := on_expiry t; armed := false |}.

Inductive exn : Type :=
| ValueError (gain : Z).

Inductive result (A : Type) : Type :=
| Ok (a : A)
| Raise (e : exn).
Arguments Ok {A} a.
Arguments Raise {A} e.

(** [validate_gain]: raises [ValueError] unless the code is a legal one. *)
Definition validate_gain (gain : Z) : result unit :=
  if negb ((gain =? GAIN_128) || (gain =? GAIN_64) || (gain =? GAIN_32))
  then Raise (ValueError gain)
  else Ok tt.

(** [discard_timer(timer)]: nothing for [None]; otherwise the object is
    stopped.  The assignment [timer = None] that ends the Python function
    rebinds its own parameter only: the attribute the caller passed still
    refers to the (stopped) object.  The result is therefore what the
    caller's attribute refers to after the call. *)
Definition discard_timer (timer : option Timer) : option Timer :=
  match timer with
  | None => None
  | Some t => Some (deinit t)
  end.

Section Driver.

Context {P : Platform}.

(** [DATA_READY_TIMEOUT = round(2000 / UPDATE_FREQ)], in milliseconds. *)
Definition DATA_READY_TIMEOUT : Z := py_round (true_div 2000 UPDATE_FREQ).

(** ** The driver object

    The attributes of an [Hx711] instance.  [name], [lock] and the two
    [machine.Pin] handles are left out: the pins are the [World], the lock
    does nothing on one thread, the name is only a label. *)
Record Hx711 : Type := mkHx711 {
  status : Z;
  clock_pin_no : Z;
  data_pin_no : Z;
  configuration : Z;
  data_ready_timer : option Timer;
  settled_timer : option Timer;
  offset : Z;
  gain : num;
  dfs : num;
  zeros_to_average : Z;
  value : num;
  zeroing_sum : Z;
  values_received : Z
}.

Definition with_status (v : Z) (d : Hx711) : Hx711 :=
  mkHx711 v (clock_pin_no d) (data_pin_no d) (configuration d)
    (data_ready_timer d) (settled_timer d) (offset d) (gain d) (dfs d)
    (zeros_to_average d) (value d) (zeroing_sum d) (values_received d).

Definition with_configuration (v : Z) (d : Hx711) : Hx711 :=
  mkHx711 (status d) (clock_pin_no d) (data_pin_no d) v
    (data_ready_timer d) (settled_timer d) (offset d) (gain d) (dfs d)
    (zeros_to_average d) (value d) (zeroing_sum d) (values_received d).

Definition with_data_ready_timer (v : option Timer) (d : Hx711) : Hx711 :=
  mkHx711 (status d) (clock_pin_no d) (data_pin_no d) (configuration d)
    v (settled_timer d) (offset d) (gain d) (dfs d)
    (zeros_to_average d) (value d) (zeroing_sum d) (values_received d).

Definition with_settled_timer (v : option Timer) (d : Hx711) : Hx711 :=
  mkHx711 (status d) (clock_pin_no d) (data_pin_no d) (configuration d)
    (data_ready_timer d) v (offset d) (gain d) (dfs d)
    (zeros_to_average d) (value d) (zeroing_sum d) (values_received d).

Definition with_offset (v : Z) (d : Hx711) : Hx711 :=
  mkHx711 (status d) (clock_pin_no d) (data_pin_no d) (configuration d)
    (data_ready_timer d) (settled_timer d) v (gain d) (dfs d)
    (zeros_to_average d) (value d) (zeroing_sum d) (values_received d).

Definition with_zeros_to_average (v : Z) (d : Hx711) : Hx711 :=
  mkHx711 (status d) (clock_pin_no d) (data_pin_no d) (configuration d)
    (data_ready_timer d) (settled_timer d) (offset d) (gain d) (dfs d)
    v (value d) (zeroing_sum d) (values_received d).

Definition with_value (v : num) (d : Hx711) : Hx711 :=
  mkHx711 (status d) (clock_pin_no d) (data_pin_no d) (configuration d)
    (data_ready_timer d) (settled_timer d) (offset d) (gain d) (dfs d)
    (zeros_to_average d) v (zeroing_sum d) (values_received d).

Definition with_zeroing_sum (v : Z) (d : Hx711) : Hx711 :=
  mkHx711 (status d) (clock_pin_no d) (data_pin_no d) (configuration d)
    (data_ready_timer d) (settled_timer d) (offset d) (gain d) (dfs d)
    (zeros_to_average d) (value d) v (values_received d).

Definition with_values_received (v : Z) (d : Hx711) : Hx711 :=
  mkHx711 (status d) (clock_pin_no d) (data_pin_no d) (configuration d)
    (data_ready_timer d) (settled_timer d) (offset d) (gain d) (dfs d)
    (zeros_to_average d) (value d) (zeroing_sum d) v.

(** ** The monad of methods *)

Record Sys : Type := mkSys {
  self : Hx711;
  world : World
}.

Definition M (A : Type) : Type := Sys -> result A * Sys.

Definition ret {A : Type} (a : A) : M A := fun s => (Ok a, s).

Definition bind {A B : Type} (m : M A) (k : A -> M B) : M B :=
  fun s =>
    match m s with
    | (Ok a, s') => k a s'
    | (Raise e, s') => (Raise e, s')
    end.

Definition lift {A : Type} (r : result A) : M A := fun s => (r, s).

(** Reading an attribute of [self]. *)
Definition attr {A : Type} (f : Hx711 -> A) : M A :=
  fun s => (Ok (f (self s)), s).

(** Assigning to attributes of [self]. *)
Definition assign (f : Hx711 -> Hx711) : M unit :=
  fun s => (Ok tt, mkSys (f (self s)) (world s)).

(** Acting on the pins or the clock of the controller. *)
Definition emit (e : event) : M unit :=
  fun s =>
    let w := world s in
    (Ok tt, mkSys (self s) (mkWorld (dout w) (sampled w) (e :: trace w))).

(** [self.data()]: the level of the data line now, as 0 or 1. *)
Definition data_pin : M Z :=
  fun s =>
    let w := world s in
    let level := dout w (sampled w) in
    (Ok (Z.b2z level),
     mkSys (self s) (mkWorld (dout w) (S (sampled w)) (DataGet level :: trace w))).

(** [self.clock(level)]. *)
Definition clock_pin (level : bool) : M unit := emit (ClockSet level).

Definition sleep_us (us : Z) : M unit := emit (SleepUs us).
Definition sleep_ms (ms : Z) : M unit := emit (SleepMs ms).

(** [for j in range(n): body]. *)
Fixpoint for_range (n : nat) (body : M unit) : M unit :=
  match n with
  | O => ret tt
  | S n' => bind body (fun _ => for_range n' body)
  end.

End Driver.

Declare Scope hx_scope.
Delimit Scope hx_scope with hx.
Notation "x <- m ;; k" := (bind m (fun x => k))
  (at level 61, m at next level, right associativity) : hx_scope.
Notation "m ;; k" := (bind m (fun _ => k))
  (at level 61, right associativity) : hx_scope.
Open Scope hx_scope.

(** ** The methods of [Hx711] *)

Section Methods.

Context {P : Platform}.

(** [self.status &= ~flags] *)
Definition clear_status (flags : Z) : M unit :=
  assign (fun d => with_status (Z.land (status d) (Z.lnot flags)) d).

(** [self.status |= flags] *)
Definition set_status (flags : Z) : M unit :=
  assign (fun d => with_status (Z.lor (status d) flags) d).

Definition status_contains (flags : Z) : M bool :=
  st <- attr status ;;
  if flags =? STATUS_NOMINAL then ret (st =? STATUS_NOMINAL)
  else ret (negb (Z.land st flags =? 0)).

(** [zero_now]: begin averaging readings to find the zero. *)
Definition zero_now : M unit :=
  assign (with_zeroing_sum 0) ;;
  set_status STATUS_ZEROING ;;
  assign (with_values_received 0).

Definition powered_up : M bool :=
  c <- status_contains
         (Z.lor (Z.lor STATUS_INITIALIZING STATUS_POWERED_DOWN) STATUS_POWERING_UP) ;;
  ret (negb c).

(** [self.powered_up() and not self.status_contains(STATUS_NOT_SETTLED)] *)
Definition settled : M bool :=
  up <- powered_up ;;
  if up then
    c <- status_contains STATUS_NOT_SETTLED ;;
    ret (negb c)
  else ret false.

(** The callback of the settle timer. *)
Definition settled_timeout : M unit :=
  clear_status STATUS_NOT_SETTLED ;;
  assign (fun d => with_settled_timer (discard_timer (settled_timer d)) d).

(** The callback of the data-ready timeout timer. *)
Definition data_ready_timeout : M unit :=
  set_status STATUS_DATA_READY_TIMEOUT ;;
  assign (fun d => with_data_ready_timer (discard_timer (data_ready_timer d)) d).

(** [data_ready]: the chip pulls the data line low when a conversion is
    complete. *)
Definition data_ready : M bool :=
  level <- data_pin ;;
  let ready := level =? 0 in
  (if ready then
     assign (fun d => with_data_ready_timer (discard_timer (data_ready_timer d)) d) ;;
     clear_status (Z.lor STATUS_DATA_NOT_READY STATUS_DATA_READY_TIMEOUT)
   else
     set_status STATUS_DATA_NOT_READY ;;
     st <- settled ;;
     tm <- attr data_ready_timer ;;
     if st && (match tm with None => true | Some _ => false end) then
       assign (with_data_ready_timer
                 (Some (mkTimer DATA_READY_TIMEOUT DataReadyTimeout true)))
     else ret tt) ;;
  ret ready.

(** [for ms in range(timeout)]: poll, 1 ms apart. *)
Fixpoint wait_data_ready_loop (n : nat) : M bool :=
  match n with
  | O => ret false
  | S n' =>
      r <- data_ready ;;
      if r then ret true
      else sleep_ms 1 ;; wait_data_ready_loop n'
  end.

Definition wait_data_ready (timeout : Z) : M bool :=
  wait_data_ready_loop (Z.to_nat timeout).

(** One clock pulse; returns the state of the data line, 0 or 1. *)
Definition clock_a_data_bit : M Z :=
  clock_pin true ;;
  sleep_us 1 ;;
  clock_pin false ;;
  data_pin.

(** [self.value * self.dfs + value * (1 - self.dfs)] *)
Definition weighted_average (v : num) : M num :=
  d <- attr (fun d => d) ;;
  ret (num_add (num_mul (value d) (dfs d))
               (num_mul v (num_sub (of_int 1) (dfs d)))).

(** [for j in range(n): data <<= 1; data |= self.clock_a_data_bit()] *)
Fixpoint shift_in (n : nat) (data : Z) : M Z :=
  match n with
  | O => ret data
  | S n' =>
      b <- clock_a_data_bit ;;
      shift_in n' (Z.lor (Z.shiftl data 1) b)
  end.

(** [if data > MAX_RAW: data -= EXTEND_SIGN] *)
Definition extend_sign (data : Z) : Z :=
  if data >? MAX_RAW then data - EXTEND_SIGN else data.

(** [read]: one conversion cycle.  The result is [Some v] where the Python
    method executes [return v] and [None] where it runs off its end. *)
Definition read : M (option num) :=
  ready <- data_ready ;;
  if ready then
    clear_status STATUS_NO_DATA ;;
    data <- shift_in 24 0 ;;
    bit25 <- clock_a_data_bit ;;
    if bit25 =? 1 then
      clear_status STATUS_DOUT_STUCK_LOW ;;
      cfg <- attr configuration ;;
      for_range (Z.to_nat cfg) (clock_a_data_bit ;; ret tt) ;;
      let data := extend_sign data in
      (if (data =? MAX_RAW) || (data =? MIN_RAW)
       then set_status STATUS_OUT_OF_RANGE
       else clear_status STATUS_OUT_OF_RANGE) ;;
      st <- settled ;;
      if st then
        d <- attr (fun d => d) ;;
        (if values_received d <? zeros_to_average d then
           assign (with_zeroing_sum (zeroing_sum d + data))
         else
           zeroing <- status_contains STATUS_ZEROING ;;
           if zeroing && (values_received d >=? zeros_to_average d) then
             (if zeros_to_average d >? 0 then
                assign (with_offset
                          (py_round (true_div (zeroing_sum d) (zeros_to_average d))))
              else ret tt) ;;
             clear_status STATUS_ZEROING
           else if values_received d =? maxsize then
             assign (with_values_received (zeros_to_average d))
           else ret tt) ;;
        assign (fun d => with_values_received (values_received d + 1) d) ;;
        d <- attr (fun d => d) ;;
        if status d =? STATUS_NOMINAL then
          let v := num_mul (gain d) (of_int (data - offset d)) in
          v <- (if num_ltb (of_int 0) (dfs d) && num_ltb (dfs d) (of_int 1)
                   && (values_received d >? zeros_to_average d)
                then weighted_average v
                else ret v) ;;
          assign (with_value v) ;;
          ret None
        else ret None
      else ret None
    else
      set_status STATUS_DOUT_STUCK_LOW ;;
      v <- attr value ;;
      ret (Some v)
  else
    set_status STATUS_NO_DATA ;;
    v <- attr value ;;
    ret (Some v).

(** [set_gain(gain)]; the Python parameter defaults to [GAIN_128]. *)
Definition set_gain (gain : Z) : M bool :=
  lift (validate_gain gain) ;;
  cfg <- attr configuration ;;
  if negb (gain =? cfg) then
    assign (with_configuration gain) ;;
    wait_data_ready DATA_READY_TIMEOUT ;;
    read ;;
    set_status STATUS_NOT_SETTLED ;;
    assign (fun d => with_settled_timer (discard_timer (settled_timer d)) d) ;;
    assign (with_settled_timer (Some (mkTimer SETTLING_TIME SettledTimeout true))) ;;
    ret true
  else ret false.

Definition power_down : M unit :=
  set_status (Z.lor STATUS_POWERED_DOWN STATUS_NOT_SETTLED) ;;
  clock_pin true ;;
  sleep_us 60.

(** [power_up]; its call [self.set_gain()] passes no argument, so the
    default [GAIN_128] is the code asked for. *)
Definition power_up : M unit :=
  set_status (Z.lor STATUS_POWERING_UP STATUS_NOT_SETTLED) ;;
  zero_now ;;
  clock_pin false ;;
  clear_status STATUS_POWERED_DOWN ;;
  assign (fun d => with_settled_timer (discard_timer (settled_timer d)) d) ;;
  assign (with_settled_timer (Some (mkTimer SETTLING_TIME SettledTimeout true))) ;;
  set_gain GAIN_128 ;;
  clear_status STATUS_POWERING_UP.

Definition reset : M unit :=
  power_down ;;
  power_up.

(** [Hx711(clock_pin_no, data_pin_no, gain)]: the constructor.  The
    attribute assignments that follow [validate_gain] build the object;
    [zeroing_sum] and [values_received] come into existence in [zero_now],
    which [reset] reaches before anything reads them.  Appending the object
    to the module's [instance_list] does not touch the object. *)
Definition __init__ (clock_pin_no data_pin_no gain : Z) (w : World)
  : result Hx711 * World :=
  match validate_gain gain with
  | Raise e => (Raise e, w)
  | Ok _ =>
      let obj := mkHx711 STATUS_INITIALIZING clock_pin_no data_pin_no GAIN_128
                   None None 0 (of_int 1) (of_int 0) 50 (of_int 0) 0 0 in
      match (reset ;; clear_status STATUS_INITIALIZING) (mkSys obj w) with
      | (Ok _, s) => (Ok (self s), world s)
      | (Raise e, s) => (Raise e, world s)
      end
  end.

(** ** Timer expiry

    A one-shot timer that is still armed when its period has elapsed stops
    and runs its callback. *)
Definition expire_settled_timer (s : Sys) : option Sys :=
  match settled_timer (self s) with
  | Some t =>
      if armed t then
        Some (snd (settled_timeout
                     (mkSys (with_settled_timer (Some (deinit t)) (self s)) (world s))))
      else None
  | None => None
  end.

Definition expire_data_ready_timer (s : Sys) : option Sys :=
  match data_ready_timer (self s) with
  | Some t =>
      if armed t then
        Some (snd (data_ready_timeout
                     (mkSys (with_data_ready_timer (Some (deinit t)) (self s)) (world s))))
      else None
  | None => None
  end.

End Methods.

(** ** Observations on a state

    What a read cycle that starts in a given state will meet on the data
    line, and what it leaves on the pins. *)

Section Observations.

Context {P : Platform}.

(** [bool(self.status & flag)] *)
Definition has_flag (d : Hx711) (flag : Z) : bool :=
  negb (Z.land (status d) flag =? 0).

(** The value of [self.settled()] on a driver. *)
Definition is_settled (d : Hx711) : bool :=
  negb (has_flag d (Z.lor (Z.lor STATUS_INITIALIZING STATUS_POWERED_DOWN)
                          STATUS_POWERING_UP))
  && negb (has_flag d STATUS_NOT_SETTLED).

(** The world after one sampling of the data pin. *)
Definition sample (w : World) : World :=
  mkWorld (dout w) (S (sampled w)) (DataGet (dout w (sampled w)) :: trace w).

(** The world after one clock pulse. *)
Definition pulse (w : World) : World :=
  mkWorld (dout w) (S (sampled w))
    (DataGet (dout w (sampled w))
       :: ClockSet false :: SleepUs 1 :: ClockSet true :: trace w).

Fixpoint pulses (n : nat) (w : World) : World :=
  match n with
  | O => w
  | S n' => pulses n' (pulse w)
  end.

(** The accumulator after [n] pulses shifted into [data]. *)
Fixpoint shifted (n : nat) (data : Z) (w : World) : Z :=
  match n with
  | O => data
  | S n' =>
      shifted n' (Z.lor (Z.shiftl data 1) (Z.b2z (dout w (sampled w)))) (pulse w)
  end.

(** The level [data_ready] will find. *)
Definition line_level (s : Sys) : bool :=
  dout (world s) (sampled (world s)).

(** The 24-bit accumulator the cycle starting in [s] shifts in. *)
Definition cycle_raw (s : Sys) : Z :=
  shifted 24 0 (sample (world s)).

(** The level the 25th pulse of that cycle samples. *)
Definition cycle_bit25 (s : Sys) : bool :=
  dout (world s) (25 + sampled (world s))%nat.

(** The sign-extended reading of that cycle. *)
Definition cycle_data (s : Sys) : Z :=
  extend_sign (cycle_raw s).

(** A cycle that runs to the averaging step of [read]: the data line is low
    (ready), the 25th pulse samples it high, the driver is settled. *)
Definition settled_cycle (s : Sys) : Prop :=
  line_level s = false /\ cycle_bit25 s = true /\ is_settled (self s) = true.

(** The number of clock pulses (rising edges) in a record of events. *)
Fixpoint clock_pulses (evs : list event) : nat :=
  match evs with
  | [] => O
  | ClockSet true :: evs' => S (clock_pulses evs')
  | _ :: evs' => clock_pulses evs'
  end.



End Observations.

(** ** Concrete hardware for examples *)

(** A data line that shows the levels of [l], then stays high. *)
Definition line (l : list bool) : nat -> bool :=
  fun k => nth k l true.

(** The 24 bits of [raw], most significant first. *)
Definition bits24 (raw : Z) : list bool :=
  map (fun i => Z.testbit raw (Z.of_nat i)) (rev (seq 0 24)).

(** The levels a nominal cycle samples: low (ready), the 24 data bits, the
    25th pulse high, then [extra] configuration pulses. *)
Definition frame (raw : Z) (extra : nat) : list bool :=
  false :: bits24 raw ++ true :: repeat true extra.

Definition fresh_world (l : list bool) : World :=
  mkWorld (line l) 0 [].

(** The driver the constructor returns on pins 2 and 3, with the data line
    [l]; the fallback is never taken ([__init__] succeeds on a legal code). *)
Definition constructed (l : list bool) : @Sys exact_platform :=
  match __init__ 2 3 GAIN_128 (fresh_world l) with
  | (Ok d, w) => mkSys d w
  | (Raise _, w) =>
      mkSys (mkHx711 STATUS_INITIALIZING 2 3 GAIN_128 None None 0
               (of_int 1) (of_int 0) 50 (of_int 0) 0 0) w
  end.

(** The same driver once its settle timer has expired, its attribute
    [zeros_to_average] set to [target]. *)
Definition settled_example (target : Z) (l : list bool) : @Sys exact_platform :=
  let s := constructed l in
  let s := match expire_settled_timer s with Some s' => s' | None => s end in
  mkSys (with_zeros_to_average target (self s)) (world s).

(** The timeout scenario on the driver of [settled_example]: the line is
    high at the first poll, low at the second, high ever after. *)
Definition timeout_line : list bool := [true; false].

(** After the first poll: the line was high. *)
Definition timeout_armed : @Sys exact_platform :=
  snd (data_ready (settled_example 50 timeout_line)).

(** After the timeout timer has expired. *)
Definition timeout_expired : @Sys exact_platform :=
  match expire_data_ready_timer timeout_armed with
  | Some s => s
  | None => timeout_armed
  end.

(** After the second poll: the line was low (ready). *)
Definition timeout_cleared : @Sys exact_platform :=
  snd (data_ready timeout_expired).

(** A settled driver whose configuration was set to [GAIN_64]. *)
Definition gain_64_example : @Sys exact_platform :=
  snd (set_gain GAIN_64 (settled_example 50 (false :: frame 5 2))).

(** ** Runs of read cycles, executably *)

Section Executable.

Context {P : Platform}.

(** [settled_cycle], decided. *)
Definition settled_cycleb (s : Sys) : bool :=
  negb (line_level s) && cycle_bit25 s && is_settled (self s).

(** The state after [n] calls of [read]. *)
Fixpoint reads (n : nat) (s : Sys) : Sys :=
  match n with
  | O => s
  | S n' => reads n' (snd (read s))
  end.




(** ** Three sentences of the specification, as they are written *)


(** "saturating the counter at the target count rather than letting it
    continue past". *)
Definition counter_saturates_at_target : Prop :=
  forall s : Sys,
    settled_cycle s ->
    values_received (self s) <= zeros_to_average (self s) ->
    values_received (self (snd (read s))) <= zeros_to_average (self s).

(** "power_up() ... re-applies the current configuration". *)
Definition power_up_keeps_configuration : Prop :=
  forall s : Sys,
    configuration (self s) = GAIN_128 \/ configuration (self s) = GAIN_64
    \/ configuration (self s) = GAIN_32 ->
    configuration (self (snd (power_up s))) = configuration (self s).

End Executable.

(** ** Frames *)

Section Frames.

Context {P : Platform}.

(** What no poll and no read cycle of a driver that is not settled changes:
    the lifecycle flags, the zeroing flag, the calibration and the
    averaging state, the committed value and the settle timer. *)
Definition kept_while_unsettled (s s' : Sys) : Prop :=
  Z.testbit (status (self s')) 0 = Z.testbit (status (self s)) 0
  /\ Z.testbit (status (self s')) 1 = Z.testbit (status (self s)) 1
  /\ Z.testbit (status (self s')) 2 = Z.testbit (status (self s)) 2
  /\ Z.testbit (status (self s')) 3 = Z.testbit (status (self s)) 3
  /\ Z.testbit (status (self s')) 8 = Z.testbit (status (self s)) 8
  /\ values_received (self s') = values_received (self s)
  /\ zeroing_sum (self s') = zeroing_sum (self s)
  /\ offset (self s') = offset (self s)
  /\ value (self s') = value (self s)
  /\ gain (self s') = gain (self s)
  /\ dfs (self s') = dfs (self s)
  /\ zeros_to_average (self s') = zeros_to_average (self s)
  /\ settled_timer (self s') = settled_timer (self s).

(** The number of samplings of the data pin in a record of events. *)
Fixpoint data_samples (evs : list event) : nat :=
  match evs with
  | [] => O
  | DataGet _ :: evs' => S (data_samples evs')
  | _ :: evs' => data_samples evs'
  end.

(** The milliseconds slept in a record of events. *)
Fixpoint slept_ms (evs : list event) : Z :=
  match evs with
  | [] => 0
  | SleepMs ms :: evs' => ms + slept_ms evs'
  | _ :: evs' => slept_ms evs'
  end.

End Frames.

(** ** Weakest preconditions *)

Section WeakestPre.

Context {P : Platform}.

(** [wp m Q s]: run from [s], the method [m] ends with a result and in a
    state that satisfy [Q]. *)
Definition wp {A : Type} (m : M A) (Q : result A -> Sys -> Prop) (s : Sys) : Prop :=
  Q (fst (m s)) (snd (m s)).

End WeakestPre.

(** * Properties *)

(** ** Rules of the weakest precondition *)

Section Rules.

Context {P : Platform}.

Lemma wp_bind {A B : Type} (m : M A) (k : A -> M B) Q s :
  wp m (fun r s' => match r with
                    | Ok a => wp (k a) Q s'
                    | Raise e => Q (Raise e) s'
                    end) s ->
  wp (bind m k) Q s.
Proof.
  unfold wp, bind. destruct (m s) as [[a|e] s']; cbn [fst snd]; auto.
Qed.

Lemma wp_result {A : Type} (m : M A) (Q : result A -> Sys -> Prop) s :
  wp m Q s -> Q (fst (m s)) (snd (m s)).
Proof. auto. Qed.

Lemma wp_ret {A : Type} (a : A) Q s : Q (Ok a) s -> wp (ret a) Q s.
Proof. auto. Qed.

Lemma wp_lift {A : Type} (r : result A) Q s : Q r s -> wp (lift r) Q s.
Proof. auto. Qed.

Lemma wp_attr {A : Type} (f : Hx711 -> A) Q s :
  Q (Ok (f (self s))) s -> wp (attr f) Q s.
Proof. auto. Qed.

Lemma wp_assign (f : Hx711 -> Hx711) Q s :
  Q (Ok tt) (mkSys (f (self s)) (world s)) -> wp (assign f) Q s.
Proof. auto. Qed.

Lemma wp_emit (e : event) Q s :
  Q (Ok tt)
    (mkSys (self s)
       (mkWorld (dout (world s)) (sampled (world s)) (e :: trace (world s)))) ->
  wp (emit e) Q s.
Proof. auto. Qed.

Lemma wp_data_pin Q s :
  Q (Ok (Z.b2z (line_level s))) (mkSys (self s) (sample (world s))) ->
  wp data_pin Q s.
Proof. auto. Qed.

Lemma wp_clock_a_data_bit Q s :
  Q (Ok (Z.b2z (line_level s))) (mkSys (self s) (pulse (world s))) ->
  wp clock_a_data_bit Q s.
Proof. auto. Qed.

Lemma shift_in_eq (n : nat) : forall (data : Z) (s : Sys),
  shift_in n data s
  = (Ok (shifted n data (world s)), mkSys (self s) (pulses n (world s))).
Proof.
  induction n as [|n IH]; intros data s.
  - destruct s; reflexivity.
  - cbn [shift_in shifted pulses]. unfold bind at 1.
    change (clock_a_data_bit s)
      with (Ok (Z.b2z (line_level s)), mkSys (self s) (pulse (world s))).
    cbv beta iota. rewrite IH. reflexivity.
Qed.

Lemma wp_shift_in (n : nat) (data : Z) Q s :
  Q (Ok (shifted n data (world s))) (mkSys (self s) (pulses n (world s))) ->
  wp (shift_in n data) Q s.
Proof. unfold wp. rewrite shift_in_eq. auto. Qed.

Lemma for_range_clock_eq (n : nat) : forall s : Sys,
  for_range n (clock_a_data_bit ;; ret tt) s
  = (Ok tt, mkSys (self s) (pulses n (world s))).
Proof.
  induction n as [|n IH]; intros s.
  - destruct s; reflexivity.
  - cbn [for_range pulses]. unfold bind at 1. unfold bind at 1.
    change (clock_a_data_bit s)
      with (Ok (Z.b2z (line_level s)), mkSys (self s) (pulse (world s))).
    cbv beta iota. unfold ret at 1. rewrite IH. reflexivity.
Qed.

Lemma wp_for_range_clock (n : nat) Q s :
  Q (Ok tt) (mkSys (self s) (pulses n (world s))) ->
  wp (for_range n (clock_a_data_bit ;; ret tt)) Q s.
Proof. unfold wp. rewrite for_range_clock_eq. auto. Qed.

Lemma status_contains_eq (flags : Z) (s : Sys) :
  status_contains flags s
  = (Ok (if flags =? STATUS_NOMINAL then status (self s) =? STATUS_NOMINAL
         else has_flag (self s) flags), s).
Proof.
  unfold status_contains, bind, attr, ret, has_flag.
  destruct (flags =? STATUS_NOMINAL); reflexivity.
Qed.

Lemma wp_status_contains (flags : Z) Q s :
  Q (Ok (if flags =? STATUS_NOMINAL then status (self s) =? STATUS_NOMINAL
         else has_flag (self s) flags)) s ->
  wp (status_contains flags) Q s.
Proof. unfold wp. rewrite status_contains_eq. auto. Qed.

Lemma wp_status_contains_flag (flags : Z) Q s :
  (flags =? STATUS_NOMINAL) = false ->
  Q (Ok (has_flag (self s) flags)) s ->
  wp (status_contains flags) Q s.
Proof. intros E H. apply wp_status_contains. rewrite E. exact H. Qed.

Lemma settled_eq (s : Sys) : settled s = (Ok (is_settled (self s)), s).
Proof.
  unfold settled, powered_up, bind. rewrite status_contains_eq.
  change (Z.lor (Z.lor STATUS_INITIALIZING STATUS_POWERED_DOWN) STATUS_POWERING_UP
          =? STATUS_NOMINAL) with false.
  cbv beta iota. unfold ret at 1. unfold is_settled.
  destruct (has_flag (self s) _); cbn [negb andb].
  - reflexivity.
  - rewrite status_contains_eq. reflexivity.
Qed.

Lemma wp_settled Q s : Q (Ok (is_settled (self s))) s -> wp settled Q s.
Proof. unfold wp. rewrite settled_eq. auto. Qed.

End Rules.

(** One step of symbolic execution of a method. *)
Ltac wp_step :=
  lazymatch goal with
  | |- wp (bind _ _) _ _ => apply wp_bind
  | |- wp (ret _) _ _ => apply wp_ret
  | |- wp (lift _) _ _ => apply wp_lift
  | |- wp (attr _) _ _ => apply wp_attr
  | |- wp (assign _) _ _ => apply wp_assign
  | |- wp (emit _) _ _ => apply wp_emit
  | |- wp data_pin _ _ => apply wp_data_pin
  | |- wp clock_a_data_bit _ _ => apply wp_clock_a_data_bit
  | |- wp (shift_in _ _) _ _ => apply wp_shift_in
  | |- wp (for_range _ _) _ _ => apply wp_for_range_clock
  | |- wp (status_contains _) _ _ =>
      apply wp_status_contains_flag; [reflexivity|]
  | |- wp settled _ _ => apply wp_settled
  | |- wp (clear_status _) _ _ => unfold clear_status
  | |- wp (set_status _) _ _ => unfold set_status
  | |- wp (clock_pin _) _ _ => unfold clock_pin
  | |- wp (sleep_us _) _ _ => unfold sleep_us
  | |- wp (sleep_ms _) _ _ => unfold sleep_ms
  | |- wp (weighted_average _) _ _ => unfold weighted_average
  | |- wp zero_now _ _ => unfold zero_now
  | |- wp data_ready _ _ => unfold data_ready
  | |- wp settled_timeout _ _ => unfold settled_timeout
  | |- wp data_ready_timeout _ _ => unfold data_ready_timeout
  | |- wp power_down _ _ => unfold power_down
  | |- wp (if ?b then _ else _) _ _ => destruct b eqn:?
  end;
  cbv beta iota zeta;
  cbn [self world status clock_pin_no data_pin_no configuration data_ready_timer
       settled_timer offset gain dfs zeros_to_average value zeroing_sum
       values_received with_status with_configuration with_data_ready_timer
       with_settled_timer with_offset with_value with_zeroing_sum
       with_values_received].

Ltac wp_run := repeat wp_step.

(** ** The data line and the record of events *)

Lemma dout_pulses (n : nat) : forall w, dout (pulses n w) = dout w.
Proof. induction n as [|n IH]; intros w; cbn [pulses]; [|rewrite IH]; reflexivity. Qed.

Lemma sampled_pulses (n : nat) : forall w, sampled (pulses n w) = (n + sampled w)%nat.
Proof.
  induction n as [|n IH]; intros w; cbn [pulses]; [reflexivity|].
  rewrite IH. cbn [pulse sampled]. lia.
Qed.

Lemma clock_pulses_pulses (n : nat) : forall w,
  clock_pulses (trace (pulses n w)) = (n + clock_pulses (trace w))%nat.
Proof.
  induction n as [|n IH]; intros w; cbn [pulses]; [reflexivity|].
  rewrite IH. cbn [pulse trace clock_pulses]. lia.
Qed.

(** The level met by the 25th pulse of the cycle that starts in [s]. *)
Lemma line_level_bit25 {P : Platform} (d : Hx711) (s : Sys) :
  line_level (mkSys d (pulses 24 (sample (world s)))) = cycle_bit25 s.
Proof.
  unfold line_level, cycle_bit25. cbn [world].
  rewrite dout_pulses, sampled_pulses. reflexivity.
Qed.

(** ** Status bits *)

Lemma flag_bit (st k : Z) :
  0 <= k -> negb (Z.land st (2 ^ k) =? 0) = Z.testbit st k.
Proof.
  intros Hk.
  assert (E : Z.land st (2 ^ k) = if Z.testbit st k then 2 ^ k else 0).
  { apply Z.bits_inj'. intros n Hn.
    rewrite Z.land_spec, Z.pow2_bits_eqb by assumption.
    destruct (Z.eqb_spec k n) as [->|Hne].
    - destruct (Z.testbit st n); cbn [andb].
      + rewrite Z.pow2_bits_eqb, Z.eqb_refl by assumption. reflexivity.
      + rewrite Z.bits_0. reflexivity.
    - rewrite andb_false_r.
      destruct (Z.testbit st k).
      + rewrite Z.pow2_bits_eqb by assumption.
        symmetry. apply Z.eqb_neq. assumption.
      + rewrite Z.bits_0. reflexivity. }
  rewrite E. destruct (Z.testbit st k).
  - assert (0 < 2 ^ k) by (apply Z.pow_pos_nonneg; lia).
    destruct (Z.eqb_spec (2 ^ k) 0); [lia | reflexivity].
  - reflexivity.
Qed.

Section Flags.

Context {P : Platform}.

Lemma has_flag_bit (d : Hx711) (k : Z) :
  0 <= k -> has_flag d (2 ^ k) = Z.testbit (status d) k.
Proof. intros Hk. unfold has_flag. apply flag_bit. assumption. Qed.

Lemma has_powered_flags (d : Hx711) :
  has_flag d (Z.lor (Z.lor STATUS_INITIALIZING STATUS_POWERED_DOWN) STATUS_POWERING_UP)
  = Z.testbit (status d) 0 || Z.testbit (status d) 1 || Z.testbit (status d) 2.
Proof.
  unfold has_flag.
  rewrite !Z.land_lor_distr_r.
  rewrite <- (flag_bit (status d) 0), <- (flag_bit (status d) 1),
    <- (flag_bit (status d) 2) by lia.
  change (2 ^ 0) with STATUS_INITIALIZING.
  change (2 ^ 1) with STATUS_POWERED_DOWN.
  change (2 ^ 2) with STATUS_POWERING_UP.
  set (a := Z.land (status d) STATUS_INITIALIZING).
  set (b := Z.land (status d) STATUS_POWERED_DOWN).
  set (c := Z.land (status d) STATUS_POWERING_UP).
  destruct (Z.eqb_spec (Z.lor (Z.lor a b) c) 0) as [E|E].
  - apply Z.lor_eq_0_iff in E. destruct E as [E ->].
    apply Z.lor_eq_0_iff in E. destruct E as [-> ->]. reflexivity.
  - destruct (Z.eqb_spec a 0) as [Ea|Ea]; [|reflexivity].
    destruct (Z.eqb_spec b 0) as [Eb|Eb]; [|reflexivity].
    destruct (Z.eqb_spec c 0) as [Ec|Ec]; [|reflexivity].
    exfalso. apply E. rewrite Ea, Eb, Ec. reflexivity.
Qed.

Lemma is_settled_bits (d : Hx711) :
  is_settled d
  = negb (Z.testbit (status d) 0 || Z.testbit (status d) 1 || Z.testbit (status d) 2)
    && negb (Z.testbit (status d) 3).
Proof.
  unfold is_settled. rewrite has_powered_flags.
  change STATUS_NOT_SETTLED with (2 ^ 3). rewrite has_flag_bit by lia.
  reflexivity.
Qed.

Lemma has_DATA_NOT_READY (d : Hx711) :
  has_flag d STATUS_DATA_NOT_READY = Z.testbit (status d) 4.
Proof. apply (has_flag_bit d 4). lia. Qed.

Lemma has_DATA_READY_TIMEOUT (d : Hx711) :
  has_flag d STATUS_DATA_READY_TIMEOUT = Z.testbit (status d) 5.
Proof. apply (has_flag_bit d 5). lia. Qed.

Lemma has_NO_DATA (d : Hx711) :
  has_flag d STATUS_NO_DATA = Z.testbit (status d) 6.
Proof. apply (has_flag_bit d 6). lia. Qed.

Lemma has_DOUT_STUCK_LOW (d : Hx711) :
  has_flag d STATUS_DOUT_STUCK_LOW = Z.testbit (status d) 7.
Proof. apply (has_flag_bit d 7). lia. Qed.

Lemma has_ZEROING (d : Hx711) :
  has_flag d STATUS_ZEROING = Z.testbit (status d) 8.
Proof. apply (has_flag_bit d 8). lia. Qed.

Lemma has_OUT_OF_RANGE (d : Hx711) :
  has_flag d STATUS_OUT_OF_RANGE = Z.testbit (status d) 9.
Proof. apply (has_flag_bit d 9). lia. Qed.

End Flags.

(** Flags as bits of the status word; the bits of the constants are
    computed, those of the updated words follow from the operators. *)
Ltac flag_bits :=
  rewrite ?is_settled_bits, ?has_DATA_NOT_READY, ?has_DATA_READY_TIMEOUT,
    ?has_NO_DATA, ?has_DOUT_STUCK_LOW, ?has_ZEROING, ?has_OUT_OF_RANGE in *;
  cbn [status with_status with_configuration with_data_ready_timer
       with_settled_timer with_offset with_value with_zeroing_sum
       with_values_received with_zeros_to_average] in *;
  unfold STATUS_INITIALIZING, STATUS_POWERED_DOWN, STATUS_POWERING_UP,
    STATUS_NOT_SETTLED, STATUS_DATA_NOT_READY, STATUS_DATA_READY_TIMEOUT,
    STATUS_NO_DATA, STATUS_DOUT_STUCK_LOW, STATUS_ZEROING,
    STATUS_OUT_OF_RANGE in *;
  repeat (rewrite ?Z.land_spec, ?Z.lor_spec in *;
          rewrite ?Z.lnot_spec in * by lia);
  repeat match goal with
         | |- context [Z.testbit (Z.pos ?p) ?k] =>
             let b := eval vm_compute in (Z.testbit (Z.pos p) k) in
             change (Z.testbit (Z.pos p) k) with b
         | H : context [Z.testbit (Z.pos ?p) ?k] |- _ =>
             let b := eval vm_compute in (Z.testbit (Z.pos p) k) in
             change (Z.testbit (Z.pos p) k) with b in H
         end;
  cbn [negb andb orb] in *;
  rewrite ?andb_true_r, ?andb_false_r, ?orb_false_r, ?orb_true_r in *.

(** Facts about the levels a cycle meets, brought to the hypotheses. *)
Ltac line_facts :=
  repeat match goal with
         | H : context [line_level (mkSys _ (pulses 24 (sample (world ?s))))] |- _ =>
             rewrite line_level_bit25 in H
         end;
  repeat match goal with
         | H1 : line_level ?s = _, H2 : context [line_level ?s] |- _ =>
             rewrite H1 in H2
         | H1 : cycle_bit25 ?s = _, H2 : context [cycle_bit25 ?s] |- _ =>
             rewrite H1 in H2
         end;
  cbn [Z.b2z Z.eqb Pos.eqb] in *;
  try discriminate.

(** ** Sign extension *)

Lemma lor_shift_bit (data : Z) (b : bool) :
  Z.lor (Z.shiftl data 1) (Z.b2z b) = 2 * data + Z.b2z b.
Proof.
  rewrite Z.shiftl_mul_pow2 by lia. change (2 ^ 1) with 2.
  destruct b; cbn [Z.b2z].
  - assert (H : Z.land (data * 2) 1 = 0).
    { apply Z.bits_inj'. intros n Hn. rewrite Z.land_spec, Z.bits_0.
      destruct (Z.eq_dec n 0) as [->|Hne].
      - replace (data * 2) with (2 * data) by lia.
        rewrite Z.testbit_even_0. reflexivity.
      - replace 1 with (2 ^ 0) by reflexivity.
        rewrite Z.pow2_bits_false by lia. apply andb_false_r. }
    rewrite <- Z.lxor_lor by exact H.
    rewrite <- Z.add_nocarry_lxor by exact H. lia.
  - rewrite Z.lor_0_r. lia.
Qed.

Lemma shifted_range (n : nat) : forall (data : Z) (w : World) (k : Z),
  0 <= k -> 0 <= data < 2 ^ k ->
  0 <= shifted n data w < 2 ^ (k + Z.of_nat n).
Proof.
  induction n as [|n IH]; intros data w k Hk Hd.
  - cbn [shifted]. replace (k + Z.of_nat 0) with k by lia. assumption.
  - cbn [shifted]. rewrite lor_shift_bit.
    replace (k + Z.of_nat (S n)) with ((k + 1) + Z.of_nat n) by lia.
    apply IH; [lia|].
    rewrite Z.pow_add_r by lia. change (2 ^ 1) with 2.
    destruct (dout w (sampled w)); cbn [Z.b2z]; lia.
Qed.

(** The accumulator of every cycle is a 24-bit value. *)
Lemma cycle_raw_range {P : Platform} (s : Sys) : 0 <= cycle_raw s < 2 ^ 24.
Proof.
  unfold cycle_raw.
  apply (shifted_range 24 0 (sample (world s)) 0); [lia|].
  change (2 ^ 0) with 1. lia.
Qed.

(** C7. For every 24-bit accumulator value [raw] (0 <= raw < 2^24), the
    sign-extension step of [read] yields [raw] itself when raw <= 0x7fffff
    and raw - 0x1000000 when raw > 0x7fffff, and the result lies in
    [-0x800000, 0x7fffff]. *)
Theorem extend_sign_24bit (raw : Z) :
  0 <= raw < 2 ^ 24 ->
  (raw <= 0x7fffff -> extend_sign raw = raw) /\
  (raw > 0x7fffff -> extend_sign raw = raw - 0x1000000) /\
  - 0x800000 <= extend_sign raw <= 0x7fffff.
Proof.
  intros Hraw. unfold extend_sign, MAX_RAW, EXTEND_SIGN.
  change (2 ^ 24) with 16777216 in Hraw.
  destruct (Z.gtb_spec raw 8388607) as [Hgt|Hle]; repeat split; intros; lia.
Qed.

Section ReadCycle.

Context {P : Platform}.

(** ** What a cycle returns *)

(** Data not ready: the previous value is returned and kept. *)
Lemma read_not_ready (s : Sys) :
  line_level s = true ->
  fst (read s) = Ok (Some (value (self s)))
  /\ value (self (snd (read s))) = value (self s)
  /\ has_flag (self (snd (read s))) STATUS_NO_DATA = true
  /\ trace (world (snd (read s))) = DataGet true :: trace (world s).
Proof.
  intros Hhigh.
  change (wp read (fun r s' =>
            r = Ok (Some (value (self s)))
            /\ value (self s') = value (self s)
            /\ has_flag (self s') STATUS_NO_DATA = true
            /\ trace (world s') = DataGet true :: trace (world s)) s).
  unfold read. wp_run; line_facts.
  all: repeat split; try reflexivity.
  all: try (flag_bits; reflexivity).
  all: cbn [sample trace]; unfold line_level in Hhigh; rewrite Hhigh; reflexivity.
Qed.

(** A cycle that gets past the 25th pulse runs off the end of the method:
    it returns nothing. *)
Lemma read_completed_returns_nothing (s : Sys) :
  line_level s = false ->
  cycle_bit25 s = true ->
  fst (read s) = Ok None.
Proof.
  intros Hready H25.
  change (wp read (fun r _ => r = Ok None) s).
  unfold read. wp_run; line_facts; reflexivity.
Qed.

(** [read] raises no exception and leaves the configuration alone. *)
Lemma read_frame (s : Sys) :
  wp read (fun r s' => (exists v, r = Ok v)
                       /\ configuration (self s') = configuration (self s)) s.
Proof.
  unfold read. wp_run.
  all: split; [eexists; reflexivity | reflexivity].
Qed.

(** ** The out-of-range flag *)

(** C8. On every read cycle that reaches the sign-extension step (data
    ready, 25th pulse high), the out-of-range flag is set after the cycle if
    and only if the sign-extended value is exactly 0x7fffff or exactly
    -0x800000; it is clear after every other such cycle. *)
Theorem out_of_range_iff (s : Sys) :
  line_level s = false ->
  cycle_bit25 s = true ->
  has_flag (self (snd (read s))) STATUS_OUT_OF_RANGE
  = (cycle_data s =? 0x7fffff) || (cycle_data s =? - 0x800000).
Proof.
  intros Hready H25.
  change (wp read (fun _ s' => has_flag (self s') STATUS_OUT_OF_RANGE
            = (cycle_data s =? MAX_RAW) || (cycle_data s =? MIN_RAW)) s).
  unfold cycle_data, cycle_raw.
  unfold read. wp_run; line_facts.
  all: try match goal with H : _ || _ = _ |- _ => rewrite H end.
  all: flag_bits; reflexivity.
Qed.

(** ** The 25th pulse *)

(** C6. For every read cycle in which the 25th clock pulse samples the data
    line low: [read] sets the stuck-low flag, returns the previous value and
    leaves the value field unchanged; the shifted accumulator is dropped (the
    offset, the zero accumulator, the sample counter, the zeroing flag and
    the out-of-range flag are as before the cycle); and the cycle issues
    exactly its 25 clock pulses, none after the 25th. *)
Theorem stuck_low_aborts (s : Sys) :
  line_level s = false ->
  cycle_bit25 s = false ->
  fst (read s) = Ok (Some (value (self s)))
  /\ has_flag (self (snd (read s))) STATUS_DOUT_STUCK_LOW = true
  /\ value (self (snd (read s))) = value (self s)
  /\ offset (self (snd (read s))) = offset (self s)
  /\ zeroing_sum (self (snd (read s))) = zeroing_sum (self s)
  /\ values_received (self (snd (read s))) = values_received (self s)
  /\ has_flag (self (snd (read s))) STATUS_ZEROING
     = has_flag (self s) STATUS_ZEROING
  /\ has_flag (self (snd (read s))) STATUS_OUT_OF_RANGE
     = has_flag (self s) STATUS_OUT_OF_RANGE
  /\ clock_pulses (trace (world (snd (read s))))
     = (clock_pulses (trace (world s)) + 25)%nat.
Proof.
  intros Hready H25.
  change (wp read (fun r s' =>
            r = Ok (Some (value (self s)))
            /\ has_flag (self s') STATUS_DOUT_STUCK_LOW = true
            /\ value (self s') = value (self s)
            /\ offset (self s') = offset (self s)
            /\ zeroing_sum (self s') = zeroing_sum (self s)
            /\ values_received (self s') = values_received (self s)
            /\ has_flag (self s') STATUS_ZEROING = has_flag (self s) STATUS_ZEROING
            /\ has_flag (self s') STATUS_OUT_OF_RANGE
               = has_flag (self s) STATUS_OUT_OF_RANGE
            /\ clock_pulses (trace (world s'))
               = (clock_pulses (trace (world s)) + 25)%nat) s).
  unfold read. wp_run; line_facts.
  repeat split; try reflexivity.
  - flag_bits. reflexivity.
  - flag_bits. reflexivity.
  - flag_bits. reflexivity.
  - cbn [pulse trace clock_pulses]. rewrite clock_pulses_pulses.
    cbn [sample trace clock_pulses]. lia.
Qed.

(** ** The commit *)

(** C4. [read] writes the value field only where the status word is exactly
    nominal at the commit; no later statement touches the status, so: for
    every read cycle that ends with a status other than nominal (any flag
    set), the value field after [read] is the value field before it. *)
Theorem value_kept_unless_nominal (s : Sys) :
  status (self (snd (read s))) <> STATUS_NOMINAL ->
  value (self (snd (read s))) = value (self s).
Proof.
  change (wp read (fun _ s' => status (self s') <> STATUS_NOMINAL ->
                               value (self s') = value (self s)) s).
  unfold read. wp_run; intros Hst; try reflexivity.
  all: exfalso; apply Hst; apply Z.eqb_eq; assumption.
Qed.

(** A completed cycle that ends nominal has committed the new reading:
    gain * (data - offset), blended with the previous value where the
    filter is on and the averaging window is past. *)
Lemma read_commits_when_nominal (s : Sys) :
  line_level s = false ->
  cycle_bit25 s = true ->
  status (self (snd (read s))) = STATUS_NOMINAL ->
  value (self (snd (read s)))
  = (let d' := self (snd (read s)) in
     let v := num_mul (gain d') (of_int (cycle_data s - offset d')) in
     if num_ltb (of_int 0) (dfs d') && num_ltb (dfs d') (of_int 1)
        && (values_received d' >? zeros_to_average d')
     then num_add (num_mul (value (self s)) (dfs d'))
                  (num_mul v (num_sub (of_int 1) (dfs d')))
     else v).
Proof.
  intros Hready H25.
  apply (wp_result read (fun _ s' =>
    status (self s') = STATUS_NOMINAL ->
    value (self s')
    = (let d' := self s' in
       let v := num_mul (gain d') (of_int (cycle_data s - offset d')) in
       if num_ltb (of_int 0) (dfs d') && num_ltb (dfs d') (of_int 1)
          && (values_received d' >? zeros_to_average d')
       then num_add (num_mul (value (self s)) (dfs d'))
                    (num_mul v (num_sub (of_int 1) (dfs d')))
       else v))).
  unfold cycle_data, cycle_raw.
  unfold read. wp_run; line_facts; intros Hst; cbv zeta.
  all: try match goal with
           | H : (_ =? STATUS_NOMINAL) = false |- _ =>
               apply Z.eqb_neq in H; contradiction
           end.
  all: try match goal with
           | H : is_settled _ = false |- _ =>
               unfold is_settled, has_flag in H; cbn [status with_status] in H;
               rewrite Hst in H; discriminate H
           end.
  all: match goal with
       | H : _ && _ && _ = _ |- _ => rewrite H; reflexivity
       end.
Qed.

End ReadCycle.

(** Branch conditions, rewritten where they are tested again and turned into
    arithmetic facts. *)
Ltac use_tests :=
  repeat match goal with
         | H : ?b = true |- context [if ?b then _ else _] => rewrite H
         | H : ?b = false |- context [if ?b then _ else _] => rewrite H
         end;
  repeat match goal with
         | H : _ && _ = true |- _ =>
             apply andb_true_iff in H; destruct H
         | H1 : ?b = true, H2 : context [?b] |- _ =>
             rewrite H1 in H2; cbn [andb orb negb] in H2
         | H1 : ?b = false, H2 : context [?b] |- _ =>
             rewrite H1 in H2; cbn [andb orb negb] in H2
         | H : true = false |- _ => discriminate H
         | H : false = true |- _ => discriminate H
         | H : (_ <? _) = true |- _ => apply Z.ltb_lt in H
         | H : (_ <? _) = false |- _ => apply Z.ltb_ge in H
         | H : (_ >? _) = _ |- _ => rewrite Z.gtb_ltb in H
         | H : (_ >=? _) = _ |- _ => rewrite Z.geb_leb in H
         | H : (_ <=? _) = true |- _ => apply Z.leb_le in H
         | H : (_ <=? _) = false |- _ => apply Z.leb_gt in H
         | H : (_ =? _) = true |- _ => apply Z.eqb_eq in H
         | H : (_ =? _) = false |- _ => apply Z.eqb_neq in H
         end.

(** Splitting a conjunction into its members. *)
Ltac conj_split := repeat match goal with |- _ /\ _ => split end.

(** ** Zero averaging *)

Section ZeroAveraging.

Context {P : Platform}.

(** The effect of one settled read on the averaging state, by the branch of
    the [if]/[elif] chain it takes. *)
Lemma settled_read_averaging (s : Sys) :
  settled_cycle s ->
  zeros_to_average (self (snd (read s))) = zeros_to_average (self s)
  /\ (values_received (self s) < zeros_to_average (self s) ->
      zeroing_sum (self (snd (read s))) = zeroing_sum (self s) + cycle_data s
      /\ values_received (self (snd (read s))) = values_received (self s) + 1
      /\ offset (self (snd (read s))) = offset (self s)
      /\ has_flag (self (snd (read s))) STATUS_ZEROING
         = has_flag (self s) STATUS_ZEROING)
  /\ (zeros_to_average (self s) <= values_received (self s) ->
      has_flag (self s) STATUS_ZEROING = true ->
      zeroing_sum (self (snd (read s))) = zeroing_sum (self s)
      /\ values_received (self (snd (read s))) = values_received (self s) + 1
      /\ offset (self (snd (read s)))
         = (if zeros_to_average (self s) >? 0
            then py_round (true_div (zeroing_sum (self s))
                                    (zeros_to_average (self s)))
            else offset (self s))
      /\ has_flag (self (snd (read s))) STATUS_ZEROING = false)
  /\ (zeros_to_average (self s) <= values_received (self s) ->
      has_flag (self s) STATUS_ZEROING = false ->
      zeroing_sum (self (snd (read s))) = zeroing_sum (self s)
      /\ values_received (self (snd (read s)))
         = (if values_received (self s) =? maxsize
            then zeros_to_average (self s)
            else values_received (self s)) + 1
      /\ offset (self (snd (read s))) = offset (self s)
      /\ has_flag (self (snd (read s))) STATUS_ZEROING = false).
Proof.
  intros (Hready & H25 & Hsettled).
  change (wp read (fun _ s' =>
    zeros_to_average (self s') = zeros_to_average (self s)
    /\ (values_received (self s) < zeros_to_average (self s) ->
        zeroing_sum (self s') = zeroing_sum (self s) + cycle_data s
        /\ values_received (self s') = values_received (self s) + 1
        /\ offset (self s') = offset (self s)
        /\ has_flag (self s') STATUS_ZEROING = has_flag (self s) STATUS_ZEROING)
    /\ (zeros_to_average (self s) <= values_received (self s) ->
        has_flag (self s) STATUS_ZEROING = true ->
        zeroing_sum (self s') = zeroing_sum (self s)
        /\ values_received (self s') = values_received (self s) + 1
        /\ offset (self s')
           = (if zeros_to_average (self s) >? 0
              then py_round (true_div (zeroing_sum (self s))
                                      (zeros_to_average (self s)))
              else offset (self s))
        /\ has_flag (self s') STATUS_ZEROING = false)
    /\ (zeros_to_average (self s) <= values_received (self s) ->
        has_flag (self s) STATUS_ZEROING = false ->
        zeroing_sum (self s') = zeroing_sum (self s)
        /\ values_received (self s')
           = (if values_received (self s) =? maxsize
              then zeros_to_average (self s)
              else values_received (self s)) + 1
        /\ offset (self s') = offset (self s)
        /\ has_flag (self s') STATUS_ZEROING = false)) s).
  unfold cycle_data, cycle_raw.
  unfold read. wp_run; line_facts.
  all: flag_bits.
  all: use_tests.
  all: repeat split; intros; try lia; try reflexivity; try congruence.
  all: use_tests; try lia.
  all: try (destruct (values_received (self s) =? maxsize); reflexivity).
Qed.

(** ** The sample counter *)

(** C9 (as amended). The counter is not held at the target: every settled
    read adds one to it.  The only guard is at [sys.maxsize]: a settled read
    that finds the counter at or above the target, the zeroing flag clear
    and the counter equal to [sys.maxsize] sets it to target + 1; every
    other settled read sets it to counter + 1.  So a counter below the
    target grows by one, and a counter that has reached the target is
    strictly above it after every settled read. *)
Theorem counter_passes_target (s : Sys) :
  settled_cycle s ->
  values_received (self (snd (read s)))
  = (if (zeros_to_average (self s) <=? values_received (self s))
        && negb (has_flag (self s) STATUS_ZEROING)
        && (values_received (self s) =? maxsize)
     then zeros_to_average (self s)
     else values_received (self s)) + 1
  /\ (values_received (self s) < zeros_to_average (self s) ->
      values_received (self (snd (read s))) = values_received (self s) + 1)
  /\ (zeros_to_average (self s) <= values_received (self s) ->
      has_flag (self s) STATUS_ZEROING = false ->
      values_received (self s) = maxsize ->
      values_received (self (snd (read s))) = zeros_to_average (self s) + 1)
  /\ (zeros_to_average (self s) <= values_received (self s) ->
      zeros_to_average (self s) < values_received (self (snd (read s)))).
Proof.
  intros Hc.
  destruct (settled_read_averaging s Hc) as (_ & Hlow & Hzero & Hafter).
  destruct (Z.leb_spec (zeros_to_average (self s)) (values_received (self s)))
    as [Hge|Hlt]; cbn [andb].
  - destruct (has_flag (self s) STATUS_ZEROING) eqn:Hz; cbn [negb andb].
    + destruct (Hzero Hge eq_refl) as (_ & Hn & _). rewrite Hn.
      conj_split; [reflexivity | intros; lia | intros; discriminate
                   | intros; lia].
    + destruct (Hafter Hge eq_refl) as (_ & Hn & _). rewrite Hn.
      destruct (Z.eqb_spec (values_received (self s)) maxsize) as [E|E].
      * conj_split; [reflexivity | intros; lia | intros; reflexivity
                     | intros; lia].
      * conj_split; [reflexivity | intros; lia | intros; contradiction
                     | intros; lia].
  - destruct (Hlow Hlt) as (_ & Hn & _). rewrite Hn.
    conj_split; [reflexivity | intros; reflexivity | intros; lia | intros; lia].
Qed.

(** ** Runs *)











Lemma settled_cycleb_sound (s : Sys) :
  settled_cycleb s = true -> settled_cycle s.
Proof.
  unfold settled_cycleb, settled_cycle. intros Hc.
  apply andb_true_iff in Hc. destruct Hc as [Hc H3].
  apply andb_true_iff in Hc. destruct Hc as [H1 H2].
  apply negb_true_iff in H1. conj_split; assumption.
Qed.


End ZeroAveraging.

(** ** Power-up and construction *)

Section PowerUp.

Context {P : Platform}.

Lemma wp_conseq {A : Type} (m : M A) (Q Q' : result A -> Sys -> Prop) s :
  wp m Q s -> (forall r s', Q r s' -> Q' r s') -> wp m Q' s.
Proof. unfold wp. auto. Qed.

Lemma data_ready_frame (s : Sys) :
  wp data_ready (fun r s' => (exists b, r = Ok b)
                             /\ configuration (self s') = configuration (self s)) s.
Proof.
  wp_run.
  all: split; [eexists; reflexivity | reflexivity].
Qed.

Lemma wait_data_ready_loop_frame (n : nat) : forall s : Sys,
  wp (wait_data_ready_loop n)
     (fun r s' => (exists b, r = Ok b)
                  /\ configuration (self s') = configuration (self s)) s.
Proof.
  induction n as [|n IH]; intros s; cbn [wait_data_ready_loop].
  - wp_run. split; [eexists; reflexivity | reflexivity].
  - apply wp_bind. apply (wp_conseq _ _ _ _ (data_ready_frame s)).
    intros r s1 [[b ->] Hc]. destruct b.
    + wp_run. split; [eexists; reflexivity | exact Hc].
    + wp_run.
      apply (wp_conseq _ _ _ _ (IH _)). cbn [self].
      intros r s2 [Hr Hc2]. split; [exact Hr | congruence].
Qed.

(** [set_gain] with a legal code raises nothing and leaves that code as the
    configuration. *)
Lemma set_gain_frame (g : Z) (s : Sys) :
  validate_gain g = Ok tt ->
  wp (set_gain g) (fun r s' => (exists b, r = Ok b)
                               /\ configuration (self s') = g) s.
Proof.
  intros Hv. unfold set_gain.
  apply wp_bind. apply wp_lift. rewrite Hv.
  apply wp_bind. apply wp_attr.
  destruct (negb (g =? configuration (self s))) eqn:E.
  - wp_run. unfold wait_data_ready.
    apply (wp_conseq _ _ _ _ (wait_data_ready_loop_frame _ _)). cbn [self].
    intros r s1 [[b ->] Hc1].
    apply wp_bind. apply (wp_conseq _ _ _ _ (read_frame s1)).
    intros r s2 [[v ->] Hc2].
    wp_run. split; [eexists; reflexivity |].
    rewrite Hc2, Hc1. reflexivity.
  - apply negb_false_iff, Z.eqb_eq in E.
    wp_run. split; [eexists; reflexivity | congruence].
Qed.

Lemma power_up_sets_default (s : Sys) :
  wp power_up (fun r s' => r = Ok tt /\ configuration (self s') = GAIN_128) s.
Proof.
  unfold power_up. wp_run.
  apply (wp_conseq _ _ _ _ (set_gain_frame GAIN_128 _ eq_refl)).
  intros r s1 [[b ->] Hc]. wp_run. split; [reflexivity | exact Hc].
Qed.

(** C2 (as amended). [power_up()] applies the default configuration code,
    not the current one: its call of [set_gain] passes no argument.  For
    every driver, [power_up()] completes and the configuration field equals
    GAIN_128 (code 0) afterwards; it is unchanged only for a driver whose
    configuration already was GAIN_128. *)
Theorem power_up_applies_default (s : Sys) :
  fst (power_up s) = Ok tt
  /\ configuration (self (snd (power_up s))) = GAIN_128.
Proof. exact (power_up_sets_default s). Qed.

Lemma reset_sets_default (s : Sys) :
  wp reset (fun r s' => r = Ok tt /\ configuration (self s') = GAIN_128) s.
Proof.
  unfold reset. wp_run. apply power_up_sets_default.
Qed.

(** C10. Constructing a driver with any legal configuration code only
    validates the argument: for every g in {GAIN_128, GAIN_64, GAIN_32} the
    constructor succeeds and the driver it returns has configuration
    GAIN_128 (code 0), so a requested GAIN_64 or GAIN_32 is not applied. *)
Theorem constructor_ignores_gain (clock_no data_no g : Z) (w : World) :
  g = GAIN_128 \/ g = GAIN_64 \/ g = GAIN_32 ->
  exists (d : Hx711) (w' : World),
    __init__ clock_no data_no g w = (Ok d, w')
    /\ configuration d = GAIN_128.
Proof.
  intros Hg.
  assert (Hv : validate_gain g = Ok tt) by (destruct Hg as [->|[->| ->]]; reflexivity).
  unfold __init__. rewrite Hv.
  match goal with
  | |- context [bind reset ?k ?x] =>
      assert (H : wp (bind reset k)
                     (fun r s' => r = Ok tt /\ configuration (self s') = GAIN_128) x)
  end.
  { apply wp_bind. apply (wp_conseq _ _ _ _ (reset_sets_default _)).
    intros r s1 [-> Hc]. wp_run. split; [reflexivity | exact Hc]. }
  unfold wp in H. destruct H as [Hr Hc].
  match goal with
  | |- context [bind reset ?k ?x] => destruct (bind reset k x) as [r s1]
  end.
  cbn [fst snd] in Hr, Hc. subst r.
  exists (self s1), (world s1). split; [reflexivity | exact Hc].
Qed.

End PowerUp.

(** ** The data-ready timeout *)

Section Timeout.

Context {P : Platform}.

(** A poll that finds the line high on a settled driver with no timer
    object arms one. *)
Lemma data_ready_arms_first_timer (s : Sys) :
  line_level s = true ->
  is_settled (self s) = true ->
  data_ready_timer (self s) = None ->
  fst (data_ready s) = Ok false
  /\ data_ready_timer (self (snd (data_ready s)))
     = Some (mkTimer DATA_READY_TIMEOUT DataReadyTimeout true).
Proof.
  intros Hhigh Hs Hnone.
  apply (wp_result data_ready (fun r s' =>
           r = Ok false
           /\ data_ready_timer (self s')
              = Some (mkTimer DATA_READY_TIMEOUT DataReadyTimeout true))).
  wp_run; line_facts.
  - split; reflexivity.
  - exfalso. rewrite Hnone in *. flag_bits. use_tests.
Qed.

(** A poll that finds the line high while the attribute still refers to a
    timer object, stopped or not, arms nothing. *)
Lemma data_ready_keeps_timer_object (s : Sys) (t : Timer) :
  line_level s = true ->
  data_ready_timer (self s) = Some t ->
  fst (data_ready s) = Ok false
  /\ data_ready_timer (self (snd (data_ready s))) = Some t
  /\ is_settled (self (snd (data_ready s))) = is_settled (self s)
  /\ has_flag (self (snd (data_ready s))) STATUS_DATA_READY_TIMEOUT
     = has_flag (self s) STATUS_DATA_READY_TIMEOUT
  /\ dout (world (snd (data_ready s))) = dout (world s)
  /\ sampled (world (snd (data_ready s))) = S (sampled (world s)).
Proof.
  intros Hhigh Ht.
  apply (wp_result data_ready (fun r s' =>
           r = Ok false
           /\ data_ready_timer (self s') = Some t
           /\ is_settled (self s') = is_settled (self s)
           /\ has_flag (self s') STATUS_DATA_READY_TIMEOUT
              = has_flag (self s) STATUS_DATA_READY_TIMEOUT
           /\ dout (world s') = dout (world s)
           /\ sampled (world s') = S (sampled (world s)))).
  wp_run; line_facts.
  - exfalso. rewrite Ht in *. use_tests.
  - conj_split; try reflexivity; try assumption.
    + flag_bits. reflexivity.
    + flag_bits. reflexivity.
Qed.

(** However long the line stays high, polled 1 ms apart, a driver whose
    attribute refers to a stopped timer gets no timeout. *)
Lemma polls_with_stopped_timer (n : nat) : forall (s : Sys) (t : Timer),
  (forall k, (sampled (world s) <= k)%nat -> dout (world s) k = true) ->
  data_ready_timer (self s) = Some t ->
  armed t = false ->
  fst (wait_data_ready_loop n s) = Ok false
  /\ expire_data_ready_timer (snd (wait_data_ready_loop n s)) = None
  /\ is_settled (self (snd (wait_data_ready_loop n s))) = is_settled (self s)
  /\ has_flag (self (snd (wait_data_ready_loop n s))) STATUS_DATA_READY_TIMEOUT
     = has_flag (self s) STATUS_DATA_READY_TIMEOUT.
Proof.
  induction n as [|n IH]; intros s t Hline Ht Ha.
  - cbn [wait_data_ready_loop ret fst snd].
    unfold expire_data_ready_timer. rewrite Ht, Ha.
    conj_split; reflexivity.
  - assert (Hhigh : line_level s = true) by (apply Hline; lia).
    destruct (data_ready_keeps_timer_object s t Hhigh Ht)
      as (Hr & Ht1 & Hs1 & Hf1 & Hd1 & Hn1).
    destruct (data_ready s) as [r s1] eqn:Edr. cbn [fst snd] in *. subst r.
    assert (Estep : wait_data_ready_loop (S n) s
                    = wait_data_ready_loop n
                        (mkSys (self s1)
                           (mkWorld (dout (world s1)) (sampled (world s1))
                              (SleepMs 1 :: trace (world s1))))).
    { cbn [wait_data_ready_loop]. unfold bind. rewrite Edr. reflexivity. }
    rewrite Estep.
    match goal with
    | |- context [wait_data_ready_loop n ?x] =>
        destruct (IH x t) as (I1 & I2 & I3 & I4)
    end.
    + cbn [world dout sampled]. intros k Hk. rewrite Hd1.
      apply Hline. lia.
    + exact Ht1.
    + exact Ha.
    + cbn [self] in I3, I4. conj_split; congruence.
Qed.

(** The same for the read cycles of the periodic tick. *)
Lemma read_keeps_timer_object (s : Sys) (t : Timer) :
  line_level s = true ->
  data_ready_timer (self s) = Some t ->
  data_ready_timer (self (snd (read s))) = Some t
  /\ is_settled (self (snd (read s))) = is_settled (self s)
  /\ has_flag (self (snd (read s))) STATUS_DATA_READY_TIMEOUT
     = has_flag (self s) STATUS_DATA_READY_TIMEOUT
  /\ dout (world (snd (read s))) = dout (world s)
  /\ sampled (world (snd (read s))) = S (sampled (world s)).
Proof.
  intros Hhigh Ht.
  apply (wp_result read (fun _ s' =>
           data_ready_timer (self s') = Some t
           /\ is_settled (self s') = is_settled (self s)
           /\ has_flag (self s') STATUS_DATA_READY_TIMEOUT
              = has_flag (self s) STATUS_DATA_READY_TIMEOUT
           /\ dout (world s') = dout (world s)
           /\ sampled (world s') = S (sampled (world s)))).
  unfold read. wp_run; line_facts.
  - exfalso. rewrite Ht in *. use_tests.
  - conj_split; try reflexivity; try assumption.
    + flag_bits. reflexivity.
    + flag_bits. reflexivity.
Qed.

Lemma reads_with_stopped_timer (n : nat) : forall (s : Sys) (t : Timer),
  (forall k, (sampled (world s) <= k)%nat -> dout (world s) k = true) ->
  data_ready_timer (self s) = Some t ->
  armed t = false ->
  expire_data_ready_timer (reads n s) = None
  /\ is_settled (self (reads n s)) = is_settled (self s)
  /\ has_flag (self (reads n s)) STATUS_DATA_READY_TIMEOUT
     = has_flag (self s) STATUS_DATA_READY_TIMEOUT.
Proof.
  induction n as [|n IH]; intros s t Hline Ht Ha; cbn [reads].
  - unfold expire_data_ready_timer. rewrite Ht, Ha.
    conj_split; reflexivity.
  - assert (Hhigh : line_level s = true) by (apply Hline; lia).
    destruct (read_keeps_timer_object s t Hhigh Ht)
      as (Ht1 & Hs1 & Hf1 & Hd1 & Hn1).
    destruct (IH (snd (read s)) t) as (I1 & I2 & I3).
    + intros k Hk. rewrite Hd1. apply Hline. lia.
    + exact Ht1.
    + exact Ha.
    + conj_split; congruence.
Qed.

End Timeout.

(** * The properties on concrete hardware

    From here on the interpreter is [exact_platform] and the drivers are
    those of [settled_example]. *)

(** ** Zero averaging *)



(** ** The sample counter *)

(** C9, as stated, fails: on a driver whose counter has reached the target
    (2 settled reads, target 2), the next settled read takes the counter to
    3. *)
Lemma counter_exceeds_target :
  ~ @counter_saturates_at_target exact_platform.
Proof.
  intros H.
  pose (s := reads 2 (settled_example 2 (frame 10 0 ++ frame 20 0 ++ frame 30 0))).
  assert (Hle : values_received (self (snd (read s))) <= zeros_to_average (self s)).
  { apply H.
    - apply settled_cycleb_sound. vm_compute. reflexivity.
    - vm_compute. discriminate. }
  vm_compute in Hle. apply Hle. reflexivity.
Qed.

(** Two settled cycles.  On the same driver the counter, at the target 2,
    is 3 after the third settled read; and on a driver whose averaging is
    over and whose counter is [sys.maxsize], the next settled read sets the
    counter to target + 1 = 3. *)
Lemma counter_passes_target_witness :
  let s := reads 2 (settled_example 2 (frame 10 0 ++ frame 20 0 ++ frame 30 0)) in
  let s3 := reads 3 (settled_example 2
                       (frame 10 0 ++ frame 20 0 ++ frame 30 0 ++ frame 40 0)) in
  let t := mkSys (with_values_received (@maxsize exact_platform) (self s3))
                 (world s3) in
  settled_cycle s
  /\ values_received (self (snd (read s))) = 3
  /\ settled_cycle t
  /\ zeros_to_average (self t) <= values_received (self t)
  /\ has_flag (self t) STATUS_ZEROING = false
  /\ values_received (self t) = @maxsize exact_platform
  /\ values_received (self (snd (read t))) = zeros_to_average (self t) + 1.
Proof.
  intros s s3 t.
  assert (Hc : settled_cycle s)
    by (apply settled_cycleb_sound; vm_compute; reflexivity).
  assert (Ht : settled_cycle t)
    by (apply settled_cycleb_sound; vm_compute; reflexivity).
  assert (H1 : zeros_to_average (self t) <= values_received (self t))
    by (vm_compute; discriminate).
  assert (H2 : has_flag (self t) STATUS_ZEROING = false)
    by (vm_compute; reflexivity).
  assert (H3 : values_received (self t) = @maxsize exact_platform)
    by (vm_compute; reflexivity).
  split; [exact Hc|]. split.
  - rewrite (proj1 (counter_passes_target s Hc)). vm_compute. reflexivity.
  - split; [exact Ht|]. split; [exact H1|]. split; [exact H2|].
    split; [exact H3|].
    exact (proj1 (proj2 (proj2 (counter_passes_target t Ht))) H1 H2 H3).
Defined.

(** ** Power-up and construction *)

(** C2, as stated, fails: the driver [gain_64_example] has configuration
    GAIN_64 (code 2); after [power_up()] its configuration is GAIN_128. *)
Lemma power_up_drops_gain_64 :
  ~ @power_up_keeps_configuration exact_platform.
Proof.
  intros H.
  assert (E : configuration (self (snd (power_up gain_64_example)))
              = configuration (self gain_64_example)).
  { apply H. right. left. vm_compute. reflexivity. }
  vm_compute in E. discriminate E.
Qed.

(** A driver constructed with GAIN_64 has configuration GAIN_128. *)
Lemma constructor_ignores_gain_witness :
  (GAIN_64 = GAIN_128 \/ GAIN_64 = GAIN_64 \/ GAIN_64 = GAIN_32)
  /\ exists (d : @Hx711 exact_platform) (w' : World),
       __init__ 2 3 GAIN_64 (fresh_world []) = (Ok d, w')
       /\ configuration d = GAIN_128.
Proof.
  split.
  - right. left. reflexivity.
  - apply constructor_ignores_gain. right. left. reflexivity.
Defined.

(** ** What [read] returns *)

(** C3: the code at a nominal cycle.  On a settled driver with no averaging
    pending ([zeros_to_average] 0) that reads 5, the cycle ends nominal and
    commits gain * (5 - offset) = 5 as the new value, but the method returns
    nothing: the committed value is not returned. *)
Theorem read_returns_nothing_on_nominal_cycle :
  let s : @Sys exact_platform := settled_example 0 (frame 5 0) in
  settled_cycleb s = true
  /\ cycle_data s = 5
  /\ status (self (snd (read s))) = STATUS_NOMINAL
  /\ value (self (snd (read s)))
     = num_mul (gain (self s)) (of_int (cycle_data s - offset (self s)))
  /\ value (self (snd (read s))) <> value (self s)
  /\ fst (read s) = Ok None.
Proof.
  vm_compute. repeat split; try reflexivity. discriminate.
Qed.

(** ** The commit, the 25th pulse, the sign, the range *)

(** A cycle during the averaging (zeroing set): the value is kept. *)
Lemma value_kept_unless_nominal_witness :
  let s : @Sys exact_platform := settled_example 50 (frame 5 0) in
  status (self (snd (read s))) <> STATUS_NOMINAL
  /\ value (self (snd (read s))) = value (self s).
Proof.
  intros s.
  assert (H : status (self (snd (read s))) <> STATUS_NOMINAL)
    by (vm_compute; discriminate).
  split; [exact H | exact (value_kept_unless_nominal s H)].
Defined.

(** A cycle whose 25th pulse samples the line low. *)
Lemma stuck_low_aborts_witness :
  let s : @Sys exact_platform :=
    settled_example 50 (false :: bits24 5 ++ [false]) in
  line_level s = false
  /\ cycle_bit25 s = false
  /\ fst (read s) = Ok (Some (value (self s)))
  /\ has_flag (self (snd (read s))) STATUS_DOUT_STUCK_LOW = true
  /\ clock_pulses (trace (world (snd (read s))))
     = (clock_pulses (trace (world s)) + 25)%nat.
Proof.
  intros s.
  assert (H1 : line_level s = false) by (vm_compute; reflexivity).
  assert (H2 : cycle_bit25 s = false) by (vm_compute; reflexivity).
  destruct (stuck_low_aborts s H1 H2) as (R & F & _ & _ & _ & _ & _ & _ & C).
  split; [exact H1|]. split; [exact H2|]. split; [exact R|].
  split; [exact F | exact C].
Defined.

(** The most negative reading: 0x800000 is extended to -0x800000. *)
Lemma extend_sign_24bit_witness :
  0 <= 0x800000 < 2 ^ 24
  /\ extend_sign 0x800000 = 0x800000 - 0x1000000.
Proof.
  assert (H : 0 <= 0x800000 < 2 ^ 24) by (vm_compute; split; [discriminate | reflexivity]).
  split; [exact H|].
  destruct (extend_sign_24bit 0x800000 H) as (_ & Hneg & _).
  apply Hneg. reflexivity.
Defined.

(** A cycle that reads the maximum 0x7fffff sets the out-of-range flag. *)
Lemma out_of_range_iff_witness :
  let s : @Sys exact_platform := settled_example 50 (frame 0x7fffff 0) in
  line_level s = false
  /\ cycle_bit25 s = true
  /\ has_flag (self (snd (read s))) STATUS_OUT_OF_RANGE = true.
Proof.
  intros s.
  assert (H1 : line_level s = false) by (vm_compute; reflexivity).
  assert (H2 : cycle_bit25 s = true) by (vm_compute; reflexivity).
  split; [exact H1|]. split; [exact H2|].
  rewrite (out_of_range_iff s H1 H2). vm_compute. reflexivity.
Defined.

(** ** The data-ready timeout *)

Lemma timeout_line_stays_high (k : nat) :
  (2 <= k)%nat -> line timeout_line k = true.
Proof.
  intros Hk. unfold line, timeout_line.
  apply nth_overflow. cbn [length]. exact Hk.
Qed.

(** C5: the code on a line that is high, low, then high for ever, polled by
    a settled driver.  The first poll arms the timeout timer and its expiry
    sets the flag; the poll that finds the line low clears the flag and
    stops the timer, but the attribute keeps referring to the stopped timer
    object ([discard_timer] clears only its own parameter).  From then on,
    however many polls 1 ms apart, or read cycles of the periodic tick, find
    the line high on the settled driver, no timer is armed, none can expire,
    and the data-ready-timeout flag stays clear. *)
Theorem data_ready_timeout_armed_once (n : nat) :
  data_ready_timer (self timeout_armed)
  = Some (mkTimer 200 DataReadyTimeout true)
  /\ has_flag (self timeout_expired) STATUS_DATA_READY_TIMEOUT = true
  /\ is_settled (self timeout_cleared) = true
  /\ has_flag (self timeout_cleared) STATUS_DATA_READY_TIMEOUT = false
  /\ data_ready_timer (self timeout_cleared)
     = Some (mkTimer 200 DataReadyTimeout false)
  /\ fst (wait_data_ready_loop n timeout_cleared) = Ok false
  /\ is_settled (self (snd (wait_data_ready_loop n timeout_cleared))) = true
  /\ expire_data_ready_timer (snd (wait_data_ready_loop n timeout_cleared)) = None
  /\ has_flag (self (snd (wait_data_ready_loop n timeout_cleared)))
       STATUS_DATA_READY_TIMEOUT = false
  /\ is_settled (self (reads n timeout_cleared)) = true
  /\ expire_data_ready_timer (reads n timeout_cleared) = None
  /\ has_flag (self (reads n timeout_cleared)) STATUS_DATA_READY_TIMEOUT = false.
Proof.
  assert (Hline : forall k, (sampled (world timeout_cleared) <= k)%nat ->
                            dout (world timeout_cleared) k = true).
  { intros k Hk. change (line timeout_line k = true).
    apply timeout_line_stays_high. exact Hk. }
  destruct (polls_with_stopped_timer n timeout_cleared
              (mkTimer 200 DataReadyTimeout false) Hline eq_refl eq_refl)
    as (P1 & P2 & P3 & P4).
  destruct (reads_with_stopped_timer n timeout_cleared
              (mkTimer 200 DataReadyTimeout false) Hline eq_refl eq_refl)
    as (R1 & R2 & R3).
  split; [vm_compute; reflexivity|].
  split; [vm_compute; reflexivity|].
  split; [vm_compute; reflexivity|].
  split; [vm_compute; reflexivity|].
  split; [vm_compute; reflexivity|].
  split; [exact P1|].
  split; [rewrite P3; vm_compute; reflexivity|].
  split; [exact P2|].
  split; [rewrite P4; vm_compute; reflexivity|].
  split; [rewrite R2; vm_compute; reflexivity|].
  split; [exact R1|].
  rewrite R3. vm_compute. reflexivity.
Qed.

(** * Further properties of the driver *)

Section LifecycleFlags.

Context {P : Platform}.

Lemma has_INITIALIZING (d : Hx711) :
  has_flag d STATUS_INITIALIZING = Z.testbit (status d) 0.
Proof. apply (has_flag_bit d 0). lia. Qed.

Lemma has_POWERED_DOWN (d : Hx711) :
  has_flag d STATUS_POWERED_DOWN = Z.testbit (status d) 1.
Proof. apply (has_flag_bit d 1). lia. Qed.

Lemma has_POWERING_UP (d : Hx711) :
  has_flag d STATUS_POWERING_UP = Z.testbit (status d) 2.
Proof. apply (has_flag_bit d 2). lia. Qed.

Lemma has_NOT_SETTLED (d : Hx711) :
  has_flag d STATUS_NOT_SETTLED = Z.testbit (status d) 3.
Proof. apply (has_flag_bit d 3). lia. Qed.

End LifecycleFlags.

(** All ten flags as bits of the status word. *)
Ltac status_bits :=
  rewrite ?has_INITIALIZING, ?has_POWERED_DOWN, ?has_POWERING_UP,
    ?has_NOT_SETTLED in *;
  flag_bits.

Section ReadFrames.

Context {P : Platform}.

(** ** What [read] leaves alone *)

(** X1. No read cycle, whatever the data line shows, touches the lifecycle
    of the driver: the flags initializing, powered-down, powering-up and
    not-settled (hence [settled()]), the configuration code, the scale
    factor, the filter coefficient, the averaging target and the settle
    timer are after [read()] what they were before. *)
Theorem read_keeps_lifecycle (s : Sys) :
  is_settled (self (snd (read s))) = is_settled (self s)
  /\ has_flag (self (snd (read s))) STATUS_INITIALIZING
     = has_flag (self s) STATUS_INITIALIZING
  /\ has_flag (self (snd (read s))) STATUS_POWERED_DOWN
     = has_flag (self s) STATUS_POWERED_DOWN
  /\ has_flag (self (snd (read s))) STATUS_POWERING_UP
     = has_flag (self s) STATUS_POWERING_UP
  /\ has_flag (self (snd (read s))) STATUS_NOT_SETTLED
     = has_flag (self s) STATUS_NOT_SETTLED
  /\ configuration (self (snd (read s))) = configuration (self s)
  /\ gain (self (snd (read s))) = gain (self s)
  /\ dfs (self (snd (read s))) = dfs (self s)
  /\ zeros_to_average (self (snd (read s))) = zeros_to_average (self s)
  /\ settled_timer (self (snd (read s))) = settled_timer (self s).
Proof.
  apply (wp_result read (fun _ s' =>
    is_settled (self s') = is_settled (self s)
    /\ has_flag (self s') STATUS_INITIALIZING = has_flag (self s) STATUS_INITIALIZING
    /\ has_flag (self s') STATUS_POWERED_DOWN = has_flag (self s) STATUS_POWERED_DOWN
    /\ has_flag (self s') STATUS_POWERING_UP = has_flag (self s) STATUS_POWERING_UP
    /\ has_flag (self s') STATUS_NOT_SETTLED = has_flag (self s) STATUS_NOT_SETTLED
    /\ configuration (self s') = configuration (self s)
    /\ gain (self s') = gain (self s)
    /\ dfs (self s') = dfs (self s)
    /\ zeros_to_average (self s') = zeros_to_average (self s)
    /\ settled_timer (self s') = settled_timer (self s))).
  unfold read. wp_run.
  all: clear; conj_split; try reflexivity.
  all: status_bits; reflexivity.
Qed.

End ReadFrames.

Section ReadPaths.

Context {P : Platform}.

(** A read cycle of a driver that is not settled keeps everything but the
    transient flags and the data-ready timer. *)
Lemma read_kept_while_unsettled (s : Sys) :
  is_settled (self s) = false ->
  kept_while_unsettled s (snd (read s)).
Proof.
  intros Hs.
  apply (wp_result read (fun _ s' => kept_while_unsettled s s')).
  unfold read. wp_run.
  all: try (exfalso; status_bits; congruence).
  all: clear; unfold kept_while_unsettled; cbn [self]; conj_split;
       try reflexivity.
  all: status_bits; reflexivity.
Qed.

Lemma kept_while_unsettled_settled (s s' : Sys) :
  kept_while_unsettled s s' -> is_settled (self s') = is_settled (self s).
Proof.
  intros (B0 & B1 & B2 & B3 & _). rewrite !is_settled_bits.
  rewrite B0, B1, B2, B3. reflexivity.
Qed.

Lemma kept_while_unsettled_refl (s : Sys) : kept_while_unsettled s s.
Proof. unfold kept_while_unsettled. conj_split; reflexivity. Qed.

Lemma kept_while_unsettled_trans (s1 s2 s3 : Sys) :
  kept_while_unsettled s1 s2 -> kept_while_unsettled s2 s3 ->
  kept_while_unsettled s1 s3.
Proof.
  unfold kept_while_unsettled.
  intros (A0 & A1 & A2 & A3 & A4 & A5 & A6 & A7 & A8 & A9 & A10 & A11 & A12)
         (B0 & B1 & B2 & B3 & B4 & B5 & B6 & B7 & B8 & B9 & B10 & B11 & B12).
  conj_split; congruence.
Qed.

Lemma reads_kept_while_unsettled (n : nat) : forall s : Sys,
  is_settled (self s) = false ->
  kept_while_unsettled s (reads n s).
Proof.
  induction n as [|n IH]; intros s Hs; cbn [reads].
  - apply kept_while_unsettled_refl.
  - pose proof (read_kept_while_unsettled s Hs) as K.
    apply (kept_while_unsettled_trans s (snd (read s))); [exact K|].
    apply IH. rewrite (kept_while_unsettled_settled _ _ K). exact Hs.
Qed.

(** X2. Read cycles of a driver that is not settled (powered down,
    powering up, initializing or inside the settling time) run the pulse
    protocol but count for nothing: after any number [n] of them the value,
    the offset, the zero accumulator, the sample counter and the zeroing
    flag are unchanged, and the driver is still not settled. *)
Theorem unsettled_reads_are_inert (n : nat) (s : Sys) :
  is_settled (self s) = false ->
  value (self (reads n s)) = value (self s)
  /\ offset (self (reads n s)) = offset (self s)
  /\ zeroing_sum (self (reads n s)) = zeroing_sum (self s)
  /\ values_received (self (reads n s)) = values_received (self s)
  /\ has_flag (self (reads n s)) STATUS_ZEROING
     = has_flag (self s) STATUS_ZEROING
  /\ is_settled (self (reads n s)) = false.
Proof.
  intros Hs.
  pose proof (reads_kept_while_unsettled n s Hs) as K.
  pose proof (kept_while_unsettled_settled _ _ K) as Es.
  destruct K as (_ & _ & _ & _ & B8 & K1 & K2 & K3 & K4 & _).
  rewrite !has_ZEROING.
  conj_split; try assumption. congruence.
Qed.

(** X3. The transient flags clear themselves: after every read cycle that
    finds the data ready and the 25th pulse high, data-not-ready,
    data-ready-timeout, no-data and stuck-low are all clear, and the
    data-ready timeout timer is stopped (it cannot expire any more). *)
Theorem completed_cycle_clears_transient_flags (s : Sys) :
  line_level s = false ->
  cycle_bit25 s = true ->
  has_flag (self (snd (read s))) STATUS_DATA_NOT_READY = false
  /\ has_flag (self (snd (read s))) STATUS_DATA_READY_TIMEOUT = false
  /\ has_flag (self (snd (read s))) STATUS_NO_DATA = false
  /\ has_flag (self (snd (read s))) STATUS_DOUT_STUCK_LOW = false
  /\ expire_data_ready_timer (snd (read s)) = None.
Proof.
  intros Hready H25.
  apply (wp_result read (fun _ s' =>
    has_flag (self s') STATUS_DATA_NOT_READY = false
    /\ has_flag (self s') STATUS_DATA_READY_TIMEOUT = false
    /\ has_flag (self s') STATUS_NO_DATA = false
    /\ has_flag (self s') STATUS_DOUT_STUCK_LOW = false
    /\ expire_data_ready_timer s' = None)).
  unfold read. wp_run; line_facts.
  all: clear; conj_split.
  all: try (status_bits; reflexivity).
  all: unfold expire_data_ready_timer; cbn [self data_ready_timer
         with_status with_value with_values_received with_zeroing_sum
         with_offset with_data_ready_timer];
       destruct (data_ready_timer (self s)); reflexivity.
Qed.

(** The pins after a cycle that runs past the 25th pulse. *)
Lemma read_completed_world (s : Sys) :
  line_level s = false ->
  cycle_bit25 s = true ->
  world (snd (read s))
  = pulses (Z.to_nat (configuration (self s)))
      (pulse (pulses 24 (sample (world s))))
  /\ configuration (self (snd (read s))) = configuration (self s).
Proof.
  intros Hready H25.
  apply (wp_result read (fun _ s' =>
    world s' = pulses (Z.to_nat (configuration (self s)))
                 (pulse (pulses 24 (sample (world s))))
    /\ configuration (self s') = configuration (self s))).
  unfold read. wp_run; line_facts.
  all: split; reflexivity.
Qed.

(** X4. The number of clock pulses selects the channel and gain of the next
    conversion: every read cycle that finds the data ready and the 25th
    pulse high issues exactly 25 + configuration clock pulses and samples
    the data pin 26 + configuration times (once for data-ready, once per
    pulse). *)
Theorem completed_cycle_pulse_count (s : Sys) :
  line_level s = false ->
  cycle_bit25 s = true ->
  clock_pulses (trace (world (snd (read s))))
  = (clock_pulses (trace (world s)) + 25 + Z.to_nat (configuration (self s)))%nat
  /\ sampled (world (snd (read s)))
     = (sampled (world s) + 26 + Z.to_nat (configuration (self s)))%nat.
Proof.
  intros Hready H25.
  destruct (read_completed_world s Hready H25) as [Hw _]. rewrite Hw.
  rewrite !clock_pulses_pulses, !sampled_pulses.
  cbn [pulse trace sampled clock_pulses].
  rewrite !clock_pulses_pulses, !sampled_pulses.
  cbn [sample trace sampled clock_pulses]. split; lia.
Qed.

(** X5. A read cycle that finds the data not ready does nothing on the
    pins: it samples the data line once and issues no clock pulse.  It
    returns the previous value, sets no-data and data-not-ready, and leaves
    the value, the offset and the averaging state as they were. *)
Theorem not_ready_read_is_passive (s : Sys) :
  line_level s = true ->
  fst (read s) = Ok (Some (value (self s)))
  /\ trace (world (snd (read s))) = DataGet true :: trace (world s)
  /\ has_flag (self (snd (read s))) STATUS_NO_DATA = true
  /\ has_flag (self (snd (read s))) STATUS_DATA_NOT_READY = true
  /\ value (self (snd (read s))) = value (self s)
  /\ offset (self (snd (read s))) = offset (self s)
  /\ zeroing_sum (self (snd (read s))) = zeroing_sum (self s)
  /\ values_received (self (snd (read s))) = values_received (self s)
  /\ has_flag (self (snd (read s))) STATUS_ZEROING
     = has_flag (self s) STATUS_ZEROING.
Proof.
  intros Hhigh.
  apply (wp_result read (fun r s' =>
    r = Ok (Some (value (self s)))
    /\ trace (world s') = DataGet true :: trace (world s)
    /\ has_flag (self s') STATUS_NO_DATA = true
    /\ has_flag (self s') STATUS_DATA_NOT_READY = true
    /\ value (self s') = value (self s)
    /\ offset (self s') = offset (self s)
    /\ zeroing_sum (self s') = zeroing_sum (self s)
    /\ values_received (self s') = values_received (self s)
    /\ has_flag (self s') STATUS_ZEROING = has_flag (self s) STATUS_ZEROING)).
  unfold read. wp_run; line_facts.
  all: conj_split; try reflexivity.
  all: try (status_bits; reflexivity).
  all: cbn [sample trace]; unfold line_level in Hhigh; rewrite Hhigh; reflexivity.
Qed.

(** X6. The offset is written only by a read that closes an averaging:
    for every read cycle of a driver whose zeroing flag is clear, the offset
    after the cycle is the offset before it and the zeroing flag is still
    clear (only [zero_now()] starts an averaging). *)
Theorem offset_changes_only_while_zeroing (s : Sys) :
  has_flag (self s) STATUS_ZEROING = false ->
  offset (self (snd (read s))) = offset (self s)
  /\ has_flag (self (snd (read s))) STATUS_ZEROING = false.
Proof.
  intros Hz.
  apply (wp_result read (fun _ s' =>
    offset (self s') = offset (self s)
    /\ has_flag (self s') STATUS_ZEROING = false)).
  unfold read. wp_run.
  all: try (exfalso; status_bits; use_tests; congruence).
  all: conj_split; try reflexivity.
  all: status_bits; try reflexivity; try assumption.
Qed.

End ReadPaths.

(** ** The shifted word *)




(** X8. Sign extension loses nothing: for every 24-bit accumulator value
    raw (0 <= raw < 2^24), reducing the sign-extended reading modulo 2^24
    gives raw back; so two different accumulators never give the same
    reading. *)
Theorem extend_sign_round_trip (raw : Z) :
  0 <= raw < 2 ^ 24 ->
  extend_sign raw mod 2 ^ 24 = raw
  /\ forall raw', 0 <= raw' < 2 ^ 24 ->
       extend_sign raw' = extend_sign raw -> raw' = raw.
Proof.
  intros Hraw.
  assert (Hmod : forall r, 0 <= r < 2 ^ 24 -> extend_sign r mod 2 ^ 24 = r).
  { intros r Hr. unfold extend_sign, MAX_RAW, EXTEND_SIGN.
    change (2 ^ 24) with 16777216 in *.
    destruct (Z.gtb_spec r 8388607).
    - replace (r - 16777216) with (r + (-1) * 16777216) by lia.
      rewrite Z.mod_add by lia. apply Z.mod_small. lia.
    - apply Z.mod_small. lia. }
  split; [apply Hmod; assumption|].
  intros raw' Hraw' E.
  rewrite <- (Hmod raw' Hraw'), <- (Hmod raw Hraw), E. reflexivity.
Qed.

Section Commit.

Context {P : Platform}.

(** X9. What a nominal cycle commits.  For every completed read cycle that
    ends with a nominal status: with the filter off (the coefficient is not
    strictly between 0 and 1), or with the sample counter not yet past the
    averaging target, the value becomes exactly gain * (data - offset); with
    the filter on and the counter past the target it becomes
    previous * dfs + gain * (data - offset) * (1 - dfs). *)
Theorem nominal_cycle_commits (s : Sys) :
  line_level s = false ->
  cycle_bit25 s = true ->
  status (self (snd (read s))) = STATUS_NOMINAL ->
  (num_ltb (of_int 0) (dfs (self s)) && num_ltb (dfs (self s)) (of_int 1) = false ->
   value (self (snd (read s)))
   = num_mul (gain (self s))
       (of_int (cycle_data s - offset (self (snd (read s))))))
  /\ (values_received (self (snd (read s))) <= zeros_to_average (self s) ->
      value (self (snd (read s)))
      = num_mul (gain (self s))
          (of_int (cycle_data s - offset (self (snd (read s))))))
  /\ (num_ltb (of_int 0) (dfs (self s)) && num_ltb (dfs (self s)) (of_int 1) = true ->
      zeros_to_average (self s) < values_received (self (snd (read s))) ->
      value (self (snd (read s)))
      = num_add (num_mul (value (self s)) (dfs (self s)))
          (num_mul (num_mul (gain (self s))
                      (of_int (cycle_data s - offset (self (snd (read s))))))
             (num_sub (of_int 1) (dfs (self s))))).
Proof.
  intros Hready H25 Hnom.
  pose proof (read_commits_when_nominal s Hready H25 Hnom) as Hv.
  cbv zeta in Hv.
  assert (Hg : gain (self (snd (read s))) = gain (self s)
               /\ dfs (self (snd (read s))) = dfs (self s)
               /\ zeros_to_average (self (snd (read s))) = zeros_to_average (self s)).
  { clear. apply (wp_result read (fun _ s' =>
      gain (self s') = gain (self s) /\ dfs (self s') = dfs (self s)
      /\ zeros_to_average (self s') = zeros_to_average (self s))).
    unfold read. wp_run; conj_split; reflexivity. }
  destruct Hg as (Eg & Ed & Ez). rewrite Eg, Ed, Ez in Hv.
  split; [|split].
  - intros Hoff. rewrite Hoff in Hv. cbn [andb] in Hv. exact Hv.
  - intros Hle.
    assert (E : (values_received (self (snd (read s)))
                 >? zeros_to_average (self s)) = false).
    { rewrite Z.gtb_ltb. apply Z.ltb_ge. exact Hle. }
    rewrite E, andb_false_r in Hv. exact Hv.
  - intros Hon Hpast. rewrite Hon in Hv.
    apply Z.gtb_lt in Hpast. rewrite Hpast in Hv. cbn [andb] in Hv. exact Hv.
Qed.

End Commit.

(** ** Polling the data line *)

Section Polling.

Context {P : Platform}.

(** X10. A poll that finds the data line low reports ready, clears
    data-not-ready and data-ready-timeout and stops the timeout timer, so
    that no timeout can be raised for a conversion that was ready; it
    samples the data pin once and touches no other flag of the lifecycle. *)
Theorem data_ready_when_low (s : Sys) :
  line_level s = false ->
  fst (data_ready s) = Ok true
  /\ has_flag (self (snd (data_ready s))) STATUS_DATA_NOT_READY = false
  /\ has_flag (self (snd (data_ready s))) STATUS_DATA_READY_TIMEOUT = false
  /\ expire_data_ready_timer (snd (data_ready s)) = None
  /\ is_settled (self (snd (data_ready s))) = is_settled (self s)
  /\ world (snd (data_ready s)) = sample (world s).
Proof.
  intros Hlow.
  apply (wp_result data_ready (fun r s' =>
    r = Ok true
    /\ has_flag (self s') STATUS_DATA_NOT_READY = false
    /\ has_flag (self s') STATUS_DATA_READY_TIMEOUT = false
    /\ expire_data_ready_timer s' = None
    /\ is_settled (self s') = is_settled (self s)
    /\ world s' = sample (world s))).
  wp_run; line_facts.
  conj_split; try reflexivity.
  - status_bits. reflexivity.
  - status_bits. reflexivity.
  - unfold expire_data_ready_timer. cbn [self data_ready_timer with_status
      with_data_ready_timer].
    destruct (data_ready_timer (self s)); reflexivity.
  - status_bits. reflexivity.
Qed.

(** X11. A poll that finds the data line high reports not ready and sets
    data-not-ready; it creates a timeout timer (period DATA_READY_TIMEOUT,
    armed) exactly when the driver is settled and the attribute holds no
    timer object, and otherwise leaves the attribute as it is. *)
Theorem data_ready_when_high (s : Sys) :
  line_level s = true ->
  fst (data_ready s) = Ok false
  /\ has_flag (self (snd (data_ready s))) STATUS_DATA_NOT_READY = true
  /\ data_ready_timer (self (snd (data_ready s)))
     = (if is_settled (self s)
        then match data_ready_timer (self s) with
             | None => Some (mkTimer DATA_READY_TIMEOUT DataReadyTimeout true)
             | Some t => Some t
             end
        else data_ready_timer (self s))
  /\ is_settled (self (snd (data_ready s))) = is_settled (self s)
  /\ world (snd (data_ready s)) = sample (world s).
Proof.
  intros Hhigh.
  apply (wp_result data_ready (fun r s' =>
    r = Ok false
    /\ has_flag (self s') STATUS_DATA_NOT_READY = true
    /\ data_ready_timer (self s')
       = (if is_settled (self s)
          then match data_ready_timer (self s) with
               | None => Some (mkTimer DATA_READY_TIMEOUT DataReadyTimeout true)
               | Some t => Some t
               end
          else data_ready_timer (self s))
    /\ is_settled (self s') = is_settled (self s)
    /\ world s' = sample (world s))).
  wp_run; line_facts.
  all: assert (Es : is_settled
                      (with_status (Z.lor (status (self s)) STATUS_DATA_NOT_READY)
                         (self s))
                    = is_settled (self s)) by (status_bits; reflexivity).
  all: rewrite Es in *.
  all: conj_split; try reflexivity; try (status_bits; reflexivity).
  - apply andb_true_iff in Heqb0. destruct Heqb0 as [E1 E2].
    rewrite E1. destruct (data_ready_timer (self s)); [discriminate | reflexivity].
  - apply andb_false_iff in Heqb0. destruct Heqb0 as [E|E].
    + rewrite E. reflexivity.
    + destruct (is_settled (self s)); [|reflexivity].
      destruct (data_ready_timer (self s)); [reflexivity | discriminate].
Qed.

(** The facts of a ready poll that the waiting loop needs. *)
Lemma data_ready_when_low_facts (s : Sys) :
  line_level s = false ->
  fst (data_ready s) = Ok true
  /\ has_flag (self (snd (data_ready s))) STATUS_DATA_NOT_READY = false
  /\ has_flag (self (snd (data_ready s))) STATUS_DATA_READY_TIMEOUT = false
  /\ world (snd (data_ready s)) = sample (world s).
Proof.
  intros Hlow.
  apply (wp_result data_ready (fun r s' =>
    r = Ok true
    /\ has_flag (self s') STATUS_DATA_NOT_READY = false
    /\ has_flag (self s') STATUS_DATA_READY_TIMEOUT = false
    /\ world s' = sample (world s))).
  wp_run; line_facts.
  conj_split; try reflexivity; status_bits; reflexivity.
Qed.

Lemma data_ready_world (s : Sys) :
  fst (data_ready s) = Ok (negb (line_level s))
  /\ world (snd (data_ready s)) = sample (world s).
Proof.
  apply (wp_result data_ready (fun r s' =>
    r = Ok (negb (line_level s)) /\ world s' = sample (world s))).
  wp_run.
  all: destruct (line_level s); cbn [Z.b2z Z.eqb negb] in *;
       try discriminate; split; reflexivity.
Qed.

Lemma wait_data_ready_loop_step (n : nat) (s : Sys) :
  wait_data_ready_loop (S n) s
  = if line_level s
    then wait_data_ready_loop n
           (mkSys (self (snd (data_ready s)))
              (mkWorld (dout (world s)) (S (sampled (world s)))
                 (SleepMs 1 :: DataGet true :: trace (world s))))
    else (Ok true, snd (data_ready s)).
Proof.
  destruct (data_ready_world s) as [Hr Hw].
  cbn [wait_data_ready_loop]. unfold bind.
  destruct (data_ready s) as [r s1] eqn:E. cbn [fst snd] in *. subst r.
  unfold line_level in *.
  destruct (dout (world s) (sampled (world s))) eqn:El; cbn [negb].
  - unfold sleep_ms, emit. rewrite Hw. cbn [sample dout sampled trace].
    rewrite El. reflexivity.
  - reflexivity.
Qed.

(** The waiting loop on a line that stays high. *)
Lemma wait_data_ready_loop_all_high (n : nat) : forall s : Sys,
  (forall k, (k < n)%nat -> dout (world s) (sampled (world s) + k)%nat = true) ->
  fst (wait_data_ready_loop n s) = Ok false
  /\ dout (world (snd (wait_data_ready_loop n s))) = dout (world s)
  /\ sampled (world (snd (wait_data_ready_loop n s))) = (sampled (world s) + n)%nat
  /\ slept_ms (trace (world (snd (wait_data_ready_loop n s))))
     = slept_ms (trace (world s)) + Z.of_nat n
  /\ clock_pulses (trace (world (snd (wait_data_ready_loop n s))))
     = clock_pulses (trace (world s)).
Proof.
  induction n as [|n IH]; intros s Hhigh.
  - cbn [wait_data_ready_loop ret fst snd]. conj_split; try reflexivity; lia.
  - rewrite wait_data_ready_loop_step.
    assert (H0 : line_level s = true).
    { unfold line_level. rewrite <- (Hhigh 0%nat) by lia. f_equal. lia. }
    rewrite H0.
    match goal with
    | |- context [wait_data_ready_loop n ?x] =>
        destruct (IH x) as (I1 & I0 & I2 & I3 & I4)
    end.
    + cbn [world dout sampled]. intros k Hk.
      rewrite <- (Hhigh (S k)) by lia. f_equal. lia.
    + cbn [world dout sampled trace slept_ms clock_pulses] in I0, I2, I3, I4.
      conj_split; [exact I1 | exact I0 | lia | lia | exact I4].
Qed.

(** X12. [wait_data_ready] gives up after its timeout: if the data line is
    high at each of the [timeout] polls, it returns false after sampling the
    pin [timeout] times and sleeping 1 ms after each poll, without a single
    clock pulse; with a timeout of zero or less it returns false at once
    without sampling. *)
Theorem wait_data_ready_times_out (timeout : Z) (s : Sys) :
  (forall k, (k < Z.to_nat timeout)%nat ->
             dout (world s) (sampled (world s) + k)%nat = true) ->
  fst (wait_data_ready timeout s) = Ok false
  /\ sampled (world (snd (wait_data_ready timeout s)))
     = (sampled (world s) + Z.to_nat timeout)%nat
  /\ slept_ms (trace (world (snd (wait_data_ready timeout s))))
     = slept_ms (trace (world s)) + Z.of_nat (Z.to_nat timeout)
  /\ clock_pulses (trace (world (snd (wait_data_ready timeout s))))
     = clock_pulses (trace (world s)).
Proof.
  intros Hhigh. unfold wait_data_ready.
  destruct (wait_data_ready_loop_all_high _ s Hhigh) as (I1 & _ & I2 & I3 & I4).
  conj_split; assumption.
Qed.

(** The waiting loop on a line that goes low at poll [k]. *)
Lemma wait_data_ready_loop_first_low (n : nat) : forall (s : Sys) (k : nat),
  (k < n)%nat ->
  (forall j, (j < k)%nat -> dout (world s) (sampled (world s) + j)%nat = true) ->
  dout (world s) (sampled (world s) + k)%nat = false ->
  fst (wait_data_ready_loop n s) = Ok true
  /\ dout (world (snd (wait_data_ready_loop n s))) = dout (world s)
  /\ sampled (world (snd (wait_data_ready_loop n s)))
     = (sampled (world s) + k + 1)%nat
  /\ slept_ms (trace (world (snd (wait_data_ready_loop n s))))
     = slept_ms (trace (world s)) + Z.of_nat k
  /\ clock_pulses (trace (world (snd (wait_data_ready_loop n s))))
     = clock_pulses (trace (world s))
  /\ has_flag (self (snd (wait_data_ready_loop n s))) STATUS_DATA_NOT_READY = false
  /\ has_flag (self (snd (wait_data_ready_loop n s))) STATUS_DATA_READY_TIMEOUT
     = false.
Proof.
  induction n as [|n IH]; intros s k Hk Hhigh Hlow; [lia|].
  rewrite wait_data_ready_loop_step.
  destruct k as [|k].
  - assert (H0 : line_level s = false).
    { unfold line_level. rewrite <- Hlow. f_equal. lia. }
    rewrite H0. cbn [fst snd].
    destruct (data_ready_when_low_facts s H0) as (_ & F1 & F2 & Hw).
    rewrite Hw. cbn [sample dout sampled trace slept_ms clock_pulses].
    conj_split; [reflexivity | reflexivity | lia | lia | reflexivity
                 | exact F1 | exact F2].
  - assert (H0 : line_level s = true).
    { unfold line_level. rewrite <- (Hhigh 0%nat) by lia. f_equal. lia. }
    rewrite H0.
    match goal with
    | |- context [wait_data_ready_loop n ?x] =>
        destruct (IH x k) as (I1 & I0 & I2 & I3 & I4 & I5 & I6)
    end.
    + lia.
    + cbn [world dout sampled]. intros j Hj.
      rewrite <- (Hhigh (S j)) by lia. f_equal. lia.
    + cbn [world dout sampled]. rewrite <- Hlow. f_equal. lia.
    + cbn [world dout sampled trace slept_ms clock_pulses] in I0, I2, I3, I4.
      conj_split; [exact I1 | exact I0 | lia | lia | exact I4 | exact I5
                   | exact I6].
Qed.

(** X13. [wait_data_ready] returns at the first ready poll: if the data
    line is high at the first k polls and low at poll k, with k below the
    timeout, it returns true after sampling the pin exactly k + 1 times and
    sleeping k ms, and the flags data-not-ready and data-ready-timeout are
    clear. *)
Theorem wait_data_ready_returns_at_first_low (timeout : Z) (s : Sys) (k : nat) :
  (k < Z.to_nat timeout)%nat ->
  (forall j, (j < k)%nat -> dout (world s) (sampled (world s) + j)%nat = true) ->
  dout (world s) (sampled (world s) + k)%nat = false ->
  fst (wait_data_ready timeout s) = Ok true
  /\ sampled (world (snd (wait_data_ready timeout s)))
     = (sampled (world s) + k + 1)%nat
  /\ slept_ms (trace (world (snd (wait_data_ready timeout s))))
     = slept_ms (trace (world s)) + Z.of_nat k
  /\ has_flag (self (snd (wait_data_ready timeout s))) STATUS_DATA_NOT_READY = false
  /\ has_flag (self (snd (wait_data_ready timeout s))) STATUS_DATA_READY_TIMEOUT
     = false.
Proof.
  intros Hk Hhigh Hlow. unfold wait_data_ready.
  destruct (wait_data_ready_loop_first_low _ s k Hk Hhigh Hlow)
    as (I1 & _ & I2 & I3 & _ & I5 & I6).
  conj_split; assumption.
Qed.

End Polling.

(** ** Timers *)

Section Timers.

Context {P : Platform}.

(** X14. The settle timer is one-shot: when it expires, not-settled is
    cleared, no pin is touched, and it cannot expire a second time; the
    driver is then settled exactly if it is neither initializing, powered
    down nor powering up. *)
Theorem settle_timer_expires_once (s s1 : Sys) :
  expire_settled_timer s = Some s1 ->
  has_flag (self s1) STATUS_NOT_SETTLED = false
  /\ expire_settled_timer s1 = None
  /\ is_settled (self s1)
     = negb (has_flag (self s) STATUS_INITIALIZING
             || has_flag (self s) STATUS_POWERED_DOWN
             || has_flag (self s) STATUS_POWERING_UP)
  /\ world s1 = world s.
Proof.
  intros E. unfold expire_settled_timer in E.
  destruct (settled_timer (self s)) as [t|]; [|discriminate].
  destruct (armed t); [|discriminate].
  injection E as <-.
  cbn [self world]. conj_split; try reflexivity.
  - status_bits. reflexivity.
  - status_bits. cbn [negb]. rewrite ?andb_true_r. reflexivity.
Qed.

(** X15. The data-ready timeout timer is one-shot: when it expires,
    data-ready-timeout is set, no pin and no other flag of the lifecycle is
    touched, and it cannot expire a second time. *)
Theorem data_ready_timer_expires_once (s s1 : Sys) :
  expire_data_ready_timer s = Some s1 ->
  has_flag (self s1) STATUS_DATA_READY_TIMEOUT = true
  /\ expire_data_ready_timer s1 = None
  /\ is_settled (self s1) = is_settled (self s)
  /\ world s1 = world s.
Proof.
  intros E. unfold expire_data_ready_timer in E.
  destruct (data_ready_timer (self s)) as [t|]; [|discriminate].
  destruct (armed t); [|discriminate].
  injection E as <-.
  cbn [self world]. conj_split; try reflexivity.
  - status_bits. reflexivity.
  - status_bits. cbn [negb]. rewrite ?andb_true_r. reflexivity.
Qed.

End Timers.

(** ** Status flags *)





Section StatusFlags.

Context {P : Platform}.


End StatusFlags.

(** ** Configuration *)

Lemma validate_gain_illegal (g : Z) :
  g <> GAIN_128 -> g <> GAIN_64 -> g <> GAIN_32 ->
  validate_gain g = Raise (ValueError g).
Proof.
  intros H1 H2 H3. unfold validate_gain.
  apply Z.eqb_neq in H1, H2, H3. rewrite H1, H2, H3. reflexivity.
Qed.

Lemma validate_gain_legal (g : Z) :
  g = GAIN_128 \/ g = GAIN_64 \/ g = GAIN_32 ->
  validate_gain g = Ok tt.
Proof. intros [->|[->| ->]]; reflexivity. Qed.

Section Configuration.

Context {P : Platform}.

(** X17. A code other than GAIN_128, GAIN_64 and GAIN_32 is refused with
    ValueError, by [set_gain] and by the constructor alike, before anything
    happens: the driver and the pins are exactly as before the call (the
    constructor has touched no pin). *)
Theorem illegal_code_is_rejected (g : Z) (s : Sys) (clock_no data_no : Z) (w : World) :
  g <> GAIN_128 -> g <> GAIN_64 -> g <> GAIN_32 ->
  set_gain g s = (Raise (ValueError g), s)
  /\ __init__ clock_no data_no g w = (Raise (ValueError g), w).
Proof.
  intros H1 H2 H3.
  pose proof (validate_gain_illegal g H1 H2 H3) as Hv.
  split.
  - unfold set_gain, bind, lift. rewrite Hv. reflexivity.
  - unfold __init__. rewrite Hv. reflexivity.
Qed.

(** X18. [set_gain] with the code that is already the configuration
    returns false and changes nothing: no flag, no timer, no pin activity. *)
Theorem set_gain_same_code_is_noop (s : Sys) :
  configuration (self s) = GAIN_128 \/ configuration (self s) = GAIN_64
  \/ configuration (self s) = GAIN_32 ->
  set_gain (configuration (self s)) s = (Ok false, s).
Proof.
  intros Hl. unfold set_gain, bind, lift, attr.
  rewrite (validate_gain_legal _ Hl), Z.eqb_refl. reflexivity.
Qed.

(** [set_gain] with a legal code that differs from the configuration. *)
Lemma set_gain_changed (g : Z) (s : Sys) :
  validate_gain g = Ok tt ->
  g <> configuration (self s) ->
  wp (set_gain g)
     (fun r s' =>
        r = Ok true
        /\ configuration (self s') = g
        /\ Z.testbit (status (self s')) 3 = true
        /\ settled_timer (self s')
           = Some (mkTimer SETTLING_TIME SettledTimeout true)) s.
Proof.
  intros Hv Hne. unfold set_gain.
  apply wp_bind. apply wp_lift. rewrite Hv.
  apply wp_bind. apply wp_attr.
  apply Z.eqb_neq in Hne. rewrite Hne. cbn [negb].
  wp_run. unfold wait_data_ready.
  apply (wp_conseq _ _ _ _ (wait_data_ready_loop_frame _ _)). cbn [self].
  intros r s1 [[b ->] Hc1].
  apply wp_bind. apply (wp_conseq _ _ _ _ (read_frame s1)).
  intros r s2 [[v ->] Hc2].
  wp_run. conj_split; try reflexivity.
  - rewrite Hc2, Hc1. reflexivity.
  - status_bits. reflexivity.
Qed.

(** X19. [set_gain] with a legal code that differs from the configuration
    returns true and leaves the driver with the new code, not settled, and
    with a freshly armed settle timer of SETTLING_TIME ms; when that timer
    expires the driver is no longer marked not-settled. *)
Theorem set_gain_new_code_unsettles (g : Z) (s : Sys) :
  g = GAIN_128 \/ g = GAIN_64 \/ g = GAIN_32 ->
  g <> configuration (self s) ->
  fst (set_gain g s) = Ok true
  /\ configuration (self (snd (set_gain g s))) = g
  /\ has_flag (self (snd (set_gain g s))) STATUS_NOT_SETTLED = true
  /\ is_settled (self (snd (set_gain g s))) = false
  /\ settled_timer (self (snd (set_gain g s)))
     = Some (mkTimer SETTLING_TIME SettledTimeout true)
  /\ exists s2, expire_settled_timer (snd (set_gain g s)) = Some s2
                /\ has_flag (self s2) STATUS_NOT_SETTLED = false.
Proof.
  intros Hl Hne.
  destruct (set_gain_changed g s (validate_gain_legal g Hl) Hne)
    as (Hr & Hc & Hb & Ht).
  conj_split; try assumption.
  - rewrite has_NOT_SETTLED. exact Hb.
  - rewrite is_settled_bits, Hb. cbn [negb]. apply andb_false_r.
  - unfold expire_settled_timer. rewrite Ht. cbn [armed].
    eexists. split; [reflexivity|].
    cbv [settled_timeout bind clear_status assign snd].
    cbn [self status with_status with_settled_timer].
    status_bits. reflexivity.
Qed.

End Configuration.

(** ** Power and construction *)

Section Power.

Context {P : Platform}.

Lemma data_ready_kept (s : Sys) :
  wp data_ready (fun r s' => (exists b, r = Ok b) /\ kept_while_unsettled s s') s.
Proof.
  wp_run.
  all: clear; split; [eexists; reflexivity|].
  all: unfold kept_while_unsettled; cbn [self]; conj_split; try reflexivity.
  all: status_bits; reflexivity.
Qed.

Lemma wait_data_ready_loop_kept (n : nat) : forall s : Sys,
  wp (wait_data_ready_loop n)
     (fun r s' => (exists b, r = Ok b) /\ kept_while_unsettled s s') s.
Proof.
  induction n as [|n IH]; intros s; cbn [wait_data_ready_loop].
  - wp_run. split; [eexists; reflexivity | apply kept_while_unsettled_refl].
  - apply wp_bind. apply (wp_conseq _ _ _ _ (data_ready_kept s)).
    intros r s1 [[b ->] K]. destruct b.
    + wp_run. split; [eexists; reflexivity | exact K].
    + wp_run.
      apply (wp_conseq _ _ _ _ (IH _)).
      intros r s2 [Hr K2]. split; [exact Hr|].
      apply (kept_while_unsettled_trans s s1 s2); [exact K|].
      exact K2.
Qed.

Lemma read_kept_wp (s : Sys) :
  is_settled (self s) = false ->
  wp read (fun r s' => (exists v, r = Ok v) /\ kept_while_unsettled s s') s.
Proof.
  intros Hs. unfold wp. split.
  - exact (proj1 (read_frame s)).
  - apply read_kept_while_unsettled. exact Hs.
Qed.

(** [set_gain] on a driver that is not settled and whose settle timer was
    just armed. *)
Lemma set_gain_kept (g : Z) (s : Sys) :
  validate_gain g = Ok tt ->
  Z.testbit (status (self s)) 3 = true ->
  settled_timer (self s) = Some (mkTimer SETTLING_TIME SettledTimeout true) ->
  wp (set_gain g)
     (fun r s' => (exists b, r = Ok b) /\ kept_while_unsettled s s') s.
Proof.
  intros Hv Hb Ht. unfold set_gain.
  apply wp_bind. apply wp_lift. rewrite Hv.
  apply wp_bind. apply wp_attr.
  destruct (negb (g =? configuration (self s))) eqn:E.
  - wp_run. unfold wait_data_ready.
    apply (wp_conseq _ _ _ _ (wait_data_ready_loop_kept _ _)).
    intros r s1 [[b ->] K1].
    assert (Hs1 : is_settled (self s1) = false).
    { rewrite (kept_while_unsettled_settled _ _ K1).
      rewrite is_settled_bits. cbn [self status with_configuration].
      rewrite Hb. cbn [negb]. apply andb_false_r. }
    apply wp_bind.
    apply (wp_conseq _ _ _ _ (read_kept_wp s1 Hs1)).
    intros r s2 [[v ->] K2].
    pose proof (kept_while_unsettled_trans _ _ _ K1 K2) as K.
    clear K1 K2 Hs1. wp_run. split; [eexists; reflexivity|].
    unfold kept_while_unsettled in *. cbn [self] in *.
    destruct K as (B0 & B1 & B2 & B3 & B8 & K1 & K2 & K3 & K4 & K5 & K6 & K7 & K8).
    cbn [status values_received zeroing_sum offset value gain dfs
         zeros_to_average settled_timer with_status with_settled_timer
         with_configuration] in *.
    conj_split; try assumption.
    + status_bits. rewrite ?orb_false_r. exact B0.
    + status_bits. rewrite ?orb_false_r. exact B1.
    + status_bits. rewrite ?orb_false_r. exact B2.
    + status_bits. rewrite ?Hb, ?orb_true_r. assumption || reflexivity.
    + status_bits. rewrite ?orb_false_r. exact B8.
    + symmetry. exact Ht.
  - wp_run. split; [eexists; reflexivity | apply kept_while_unsettled_refl].
Qed.

(** X22. After [power_up()], whatever the driver was and whatever the data
    line shows: powered-down and powering-up are clear, not-settled and
    zeroing are set, the averaging restarts from nothing (counter 0,
    accumulator 0), a settle timer of SETTLING_TIME ms is armed, and the
    offset, the committed value, the scale factor, the filter coefficient
    and the averaging target are untouched. *)
Theorem power_up_postcondition (s : Sys) :
  has_flag (self (snd (power_up s))) STATUS_POWERED_DOWN = false
  /\ has_flag (self (snd (power_up s))) STATUS_POWERING_UP = false
  /\ has_flag (self (snd (power_up s))) STATUS_NOT_SETTLED = true
  /\ has_flag (self (snd (power_up s))) STATUS_ZEROING = true
  /\ has_flag (self (snd (power_up s))) STATUS_INITIALIZING
     = has_flag (self s) STATUS_INITIALIZING
  /\ values_received (self (snd (power_up s))) = 0
  /\ zeroing_sum (self (snd (power_up s))) = 0
  /\ settled_timer (self (snd (power_up s)))
     = Some (mkTimer SETTLING_TIME SettledTimeout true)
  /\ offset (self (snd (power_up s))) = offset (self s)
  /\ value (self (snd (power_up s))) = value (self s)
  /\ gain (self (snd (power_up s))) = gain (self s)
  /\ dfs (self (snd (power_up s))) = dfs (self s)
  /\ zeros_to_average (self (snd (power_up s))) = zeros_to_average (self s).
Proof.
  apply (wp_result power_up (fun _ s' =>
    has_flag (self s') STATUS_POWERED_DOWN = false
    /\ has_flag (self s') STATUS_POWERING_UP = false
    /\ has_flag (self s') STATUS_NOT_SETTLED = true
    /\ has_flag (self s') STATUS_ZEROING = true
    /\ has_flag (self s') STATUS_INITIALIZING = has_flag (self s) STATUS_INITIALIZING
    /\ values_received (self s') = 0
    /\ zeroing_sum (self s') = 0
    /\ settled_timer (self s') = Some (mkTimer SETTLING_TIME SettledTimeout true)
    /\ offset (self s') = offset (self s)
    /\ value (self s') = value (self s)
    /\ gain (self s') = gain (self s)
    /\ dfs (self s') = dfs (self s)
    /\ zeros_to_average (self s') = zeros_to_average (self s))).
  unfold power_up. wp_run.
  match goal with
  | |- wp (set_gain GAIN_128) _ ?x =>
      assert (Hb : Z.testbit (status (self x)) 3 = true)
        by (cbn [self status with_status with_settled_timer with_values_received
                 with_zeroing_sum]; status_bits; reflexivity);
      apply (wp_conseq _ _ _ _ (set_gain_kept GAIN_128 x eq_refl Hb eq_refl))
  end.
  intros r s1 [[b ->] K]. wp_run.
  unfold kept_while_unsettled in K. cbn [self] in K.
  cbn [status values_received zeroing_sum offset value gain dfs
       zeros_to_average settled_timer with_status with_settled_timer
       with_values_received with_zeroing_sum] in K.
  destruct K as (B0 & B1 & B2 & B3 & B8 & K1 & K2 & K3 & K4 & K5 & K6 & K7 & K8).
  conj_split; try assumption.
  - status_bits. rewrite B1. status_bits. reflexivity.
  - status_bits. reflexivity.
  - status_bits. rewrite B3. status_bits. reflexivity.
  - status_bits. rewrite B8. status_bits. reflexivity.
  - status_bits. rewrite B0. status_bits. reflexivity.
Qed.

End Power.

Section PowerDown.

Context {P : Platform}.

(** X23. [power_down()] drives the clock high and waits 60 us, marks the
    driver powered-down and not-settled, and from then on read cycles count
    for nothing: after [power_down()] and any number [n] of read cycles the
    driver is still not settled and its value, offset, zero accumulator and
    sample counter are those it had before [power_down()]. *)
Theorem powered_down_driver_is_inert (n : nat) (s : Sys) :
  fst (power_down s) = Ok tt
  /\ has_flag (self (snd (power_down s))) STATUS_POWERED_DOWN = true
  /\ has_flag (self (snd (power_down s))) STATUS_NOT_SETTLED = true
  /\ trace (world (snd (power_down s)))
     = SleepUs 60 :: ClockSet true :: trace (world s)
  /\ is_settled (self (reads n (snd (power_down s)))) = false
  /\ value (self (reads n (snd (power_down s)))) = value (self s)
  /\ offset (self (reads n (snd (power_down s)))) = offset (self s)
  /\ zeroing_sum (self (reads n (snd (power_down s)))) = zeroing_sum (self s)
  /\ values_received (self (reads n (snd (power_down s))))
     = values_received (self s).
Proof.
  assert (Hd : fst (power_down s) = Ok tt
               /\ Z.testbit (status (self (snd (power_down s)))) 1 = true
               /\ Z.testbit (status (self (snd (power_down s)))) 3 = true
               /\ trace (world (snd (power_down s)))
                  = SleepUs 60 :: ClockSet true :: trace (world s)
               /\ value (self (snd (power_down s))) = value (self s)
               /\ offset (self (snd (power_down s))) = offset (self s)
               /\ zeroing_sum (self (snd (power_down s))) = zeroing_sum (self s)
               /\ values_received (self (snd (power_down s)))
                  = values_received (self s)).
  { apply (wp_result power_down (fun r s' =>
      r = Ok tt
      /\ Z.testbit (status (self s')) 1 = true
      /\ Z.testbit (status (self s')) 3 = true
      /\ trace (world s') = SleepUs 60 :: ClockSet true :: trace (world s)
      /\ value (self s') = value (self s)
      /\ offset (self s') = offset (self s)
      /\ zeroing_sum (self s') = zeroing_sum (self s)
      /\ values_received (self s') = values_received (self s))).
    wp_run. conj_split; try reflexivity; status_bits; reflexivity. }
  destruct Hd as (Hr & H1 & H3 & Ht & Hv & Ho & Hz & Hc).
  assert (Hs : is_settled (self (snd (power_down s))) = false).
  { rewrite is_settled_bits, H3. cbn [negb]. apply andb_false_r. }
  pose proof (reads_kept_while_unsettled n _ Hs) as K.
  pose proof (kept_while_unsettled_settled _ _ K) as Es.
  destruct K as (_ & _ & _ & _ & _ & K1 & K2 & K3 & K4 & _).
  rewrite has_POWERED_DOWN, has_NOT_SETTLED.
  conj_split; try assumption; congruence.
Qed.

(** X21. The driver the constructor returns, for every pin pair, every
    legal code and every state of the data line: not settled and zeroing
    (no other flag), configuration GAIN_128, offset 0, scale factor 1,
    filter off, averaging target 50 with nothing accumulated, value 0, no
    timeout timer, a settle timer of SETTLING_TIME ms armed.  Constructing
    it drives the clock high for 60 us and then low, and never samples the
    data line. *)
Theorem constructor_postcondition (clock_no data_no g : Z) (w : World) :
  g = GAIN_128 \/ g = GAIN_64 \/ g = GAIN_32 ->
  __init__ clock_no data_no g w
  = (Ok (mkHx711 (Z.lor STATUS_NOT_SETTLED STATUS_ZEROING) clock_no data_no
           GAIN_128 None (Some (mkTimer SETTLING_TIME SettledTimeout true))
           0 (of_int 1) (of_int 0) 50 (of_int 0) 0 0),
     mkWorld (dout w) (sampled w)
       (ClockSet false :: SleepUs 60 :: ClockSet true :: trace w)).
Proof.
  intros Hl. unfold __init__. rewrite (validate_gain_legal g Hl).
  reflexivity.
Qed.

Lemma read_not_ready_world (s : Sys) :
  line_level s = true ->
  fst (read s) = Ok (Some (value (self s)))
  /\ world (snd (read s)) = sample (world s)
  /\ has_flag (self (snd (read s))) STATUS_NO_DATA = true
  /\ configuration (self (snd (read s))) = configuration (self s).
Proof.
  intros Hhigh.
  apply (wp_result read (fun r s' =>
    r = Ok (Some (value (self s)))
    /\ world s' = sample (world s)
    /\ has_flag (self s') STATUS_NO_DATA = true
    /\ configuration (self s') = configuration (self s))).
  unfold read. wp_run; line_facts.
  all: conj_split; try reflexivity; status_bits; reflexivity.
Qed.

(** [set_gain] with a new legal code, as a composition of its steps. *)
Lemma set_gain_changed_eq (g : Z) (s : Sys) :
  validate_gain g = Ok tt ->
  g <> configuration (self s) ->
  set_gain g s
  = (Ok true,
     let s1 := snd (wait_data_ready DATA_READY_TIMEOUT
                      (mkSys (with_configuration g (self s)) (world s))) in
     let s2 := snd (read s1) in
     mkSys (with_settled_timer
              (Some (mkTimer SETTLING_TIME SettledTimeout true))
              (with_settled_timer (discard_timer (settled_timer (self s2)))
                 (with_status (Z.lor (status (self s2)) STATUS_NOT_SETTLED)
                    (self s2))))
       (world s2)).
Proof.
  intros Hv Hne. apply Z.eqb_neq in Hne.
  unfold set_gain.
  unfold bind at 1. unfold lift. rewrite Hv.
  unfold bind at 1. unfold attr at 1. rewrite Hne. cbn [negb].
  unfold bind at 1. unfold assign at 1.
  unfold bind at 1.
  pose proof (wait_data_ready_loop_frame (Z.to_nat DATA_READY_TIMEOUT)
                (mkSys (with_configuration g (self s)) (world s))) as Hw.
  unfold wp in Hw. fold (wait_data_ready DATA_READY_TIMEOUT) in Hw.
  destruct (wait_data_ready DATA_READY_TIMEOUT
              (mkSys (with_configuration g (self s)) (world s))) as [r1 s1].
  cbn [fst snd] in *. destruct Hw as [[b ->] _].
  unfold bind at 1.
  pose proof (read_frame s1) as Hr. unfold wp in Hr.
  destruct (read s1) as [r2 s2]. cbn [fst snd] in *.
  destruct Hr as [[v ->] _].
  reflexivity.
Qed.

(** X20. [set_gain] does not notice a chip that never gets ready: if the
    data line stays high for the DATA_READY_TIMEOUT polls and the read that
    follows, [set_gain] with a new legal code still returns true and records
    the new code, but it has issued no clock pulse at all (the chip has not
    been given the new selection) and the driver is left with no-data set. *)
Theorem set_gain_without_ready_chip (g : Z) (s : Sys) :
  g = GAIN_128 \/ g = GAIN_64 \/ g = GAIN_32 ->
  g <> configuration (self s) ->
  (forall k, (k <= Z.to_nat DATA_READY_TIMEOUT)%nat ->
             dout (world s) (sampled (world s) + k)%nat = true) ->
  fst (set_gain g s) = Ok true
  /\ configuration (self (snd (set_gain g s))) = g
  /\ clock_pulses (trace (world (snd (set_gain g s))))
     = clock_pulses (trace (world s))
  /\ sampled (world (snd (set_gain g s)))
     = (sampled (world s) + Z.to_nat DATA_READY_TIMEOUT + 1)%nat
  /\ has_flag (self (snd (set_gain g s))) STATUS_NO_DATA = true.
Proof.
  intros Hl Hne Hhigh.
  rewrite (set_gain_changed_eq g s (validate_gain_legal g Hl) Hne).
  cbn [fst snd]. cbv zeta.
  set (s0 := mkSys (with_configuration g (self s)) (world s)).
  unfold wait_data_ready.
  destruct (wait_data_ready_loop_all_high (Z.to_nat DATA_READY_TIMEOUT) s0)
    as (_ & Hd & Hn & _ & Hp).
  { intros k Hk. apply Hhigh. lia. }
  pose proof (wait_data_ready_loop_frame (Z.to_nat DATA_READY_TIMEOUT) s0)
    as [_ Hc].
  set (s1 := snd (wait_data_ready_loop (Z.to_nat DATA_READY_TIMEOUT) s0)) in *.
  cbn [s0 world self configuration with_configuration] in Hd, Hn, Hp, Hc.
  destruct (read_not_ready_world s1) as (_ & Hw & Hf & Hc2).
  { unfold line_level. rewrite Hd, Hn. apply Hhigh. lia. }
  cbn [self world configuration with_settled_timer with_status].
  rewrite Hw. cbn [sample trace sampled clock_pulses].
  conj_split; try reflexivity.
  - rewrite Hc2, Hc. reflexivity.
  - exact Hp.
  - rewrite Hn. lia.
  - rewrite has_NO_DATA in *. cbn [status with_settled_timer with_status].
    rewrite Z.lor_spec, Hf. reflexivity.
Qed.

(** X24. [set_gain] hands the new code to the chip: if the data line goes
    low at poll k of the wait (k below DATA_READY_TIMEOUT), is still low
    when the read that follows checks it, and is high at the 25th pulse of
    that read, then [set_gain] with a new legal code g returns true having
    issued exactly 25 + g clock pulses (25 for GAIN_128, 26 for GAIN_32, 27
    for GAIN_64). *)
Theorem set_gain_pushes_new_code (g : Z) (s : Sys) (k : nat) :
  g = GAIN_128 \/ g = GAIN_64 \/ g = GAIN_32 ->
  g <> configuration (self s) ->
  (k < Z.to_nat DATA_READY_TIMEOUT)%nat ->
  (forall j, (j < k)%nat -> dout (world s) (sampled (world s) + j)%nat = true) ->
  dout (world s) (sampled (world s) + k)%nat = false ->
  dout (world s) (sampled (world s) + k + 1)%nat = false ->
  dout (world s) (sampled (world s) + k + 26)%nat = true ->
  fst (set_gain g s) = Ok true
  /\ configuration (self (snd (set_gain g s))) = g
  /\ clock_pulses (trace (world (snd (set_gain g s))))
     = (clock_pulses (trace (world s)) + 25 + Z.to_nat g)%nat.
Proof.
  intros Hl Hne Hk Hhigh Hlow Hlow' H25.
  rewrite (set_gain_changed_eq g s (validate_gain_legal g Hl) Hne).
  cbn [fst snd]. cbv zeta.
  set (s0 := mkSys (with_configuration g (self s)) (world s)).
  unfold wait_data_ready.
  destruct (wait_data_ready_loop_first_low (Z.to_nat DATA_READY_TIMEOUT) s0 k Hk)
    as (_ & Hd & Hn & _ & Hp & _).
  { exact Hhigh. }
  { exact Hlow. }
  pose proof (wait_data_ready_loop_frame (Z.to_nat DATA_READY_TIMEOUT) s0)
    as [_ Hc].
  set (s1 := snd (wait_data_ready_loop (Z.to_nat DATA_READY_TIMEOUT) s0)) in *.
  cbn [s0 world self configuration with_configuration] in Hd, Hn, Hp, Hc.
  destruct (read_completed_world s1) as (Hw & Hc2).
  { unfold line_level. rewrite Hd, Hn. exact Hlow'. }
  { unfold cycle_bit25. rewrite Hd, Hn. rewrite <- H25. f_equal. lia. }
  cbn [self world configuration with_settled_timer with_status].
  rewrite Hw, Hc.
  rewrite !clock_pulses_pulses. cbn [pulse trace clock_pulses].
  rewrite !clock_pulses_pulses. cbn [sample trace clock_pulses].
  conj_split; try reflexivity.
  - rewrite Hc2, Hc. reflexivity.
  - rewrite Hp. lia.
Qed.

End PowerDown.
(** * The further properties on concrete hardware *)

Lemma line_nil_high (k : nat) : line [] k = true.
Proof. unfold line. destruct k; reflexivity. Qed.

(** A freshly constructed driver is not settled: three read cycles leave
    its value alone. *)
Lemma unsettled_reads_are_inert_witness :
  is_settled (self (constructed (frame 5 0 ++ frame 6 0 ++ frame 7 0))) = false
  /\ value (self (reads 3 (constructed (frame 5 0 ++ frame 6 0 ++ frame 7 0))))
     = value (self (constructed (frame 5 0 ++ frame 6 0 ++ frame 7 0))).
Proof.
  assert (H : is_settled (self (constructed (frame 5 0 ++ frame 6 0 ++ frame 7 0)))
              = false) by (vm_compute; reflexivity).
  split; [exact H|].
  exact (proj1 (unsettled_reads_are_inert 3 _ H)).
Defined.

(** A completed cycle on a settled driver. *)
Lemma completed_cycle_clears_transient_flags_witness :
  line_level (settled_example 50 (frame 5 0)) = false
  /\ cycle_bit25 (settled_example 50 (frame 5 0)) = true
  /\ has_flag (self (snd (read (settled_example 50 (frame 5 0)))))
       STATUS_DATA_NOT_READY = false.
Proof.
  assert (H1 : line_level (settled_example 50 (frame 5 0)) = false)
    by (vm_compute; reflexivity).
  assert (H2 : cycle_bit25 (settled_example 50 (frame 5 0)) = true)
    by (vm_compute; reflexivity).
  split; [exact H1|]. split; [exact H2|].
  exact (proj1 (completed_cycle_clears_transient_flags _ H1 H2)).
Defined.

(** A completed cycle of a driver configured GAIN_64 issues 27 pulses. *)
Lemma completed_cycle_pulse_count_witness :
  let s : @Sys exact_platform :=
    snd (set_gain GAIN_64
           (settled_example 50 (false :: frame 5 2 ++ frame 7 2))) in
  line_level s = false
  /\ cycle_bit25 s = true
  /\ clock_pulses (trace (world (snd (read s))))
     = (clock_pulses (trace (world s)) + 25 + 2)%nat.
Proof.
  intros s.
  assert (H1 : line_level s = false) by (vm_compute; reflexivity).
  assert (H2 : cycle_bit25 s = true) by (vm_compute; reflexivity).
  split; [exact H1|]. split; [exact H2|].
  exact (proj1 (completed_cycle_pulse_count s H1 H2)).
Defined.

(** A read cycle on a line that is high. *)
Lemma not_ready_read_is_passive_witness :
  line_level (settled_example 50 []) = true
  /\ fst (read (settled_example 50 []))
     = Ok (Some (value (self (settled_example 50 [])))).
Proof.
  assert (H : line_level (settled_example 50 []) = true)
    by (vm_compute; reflexivity).
  split; [exact H|].
  exact (proj1 (not_ready_read_is_passive _ H)).
Defined.

(** A driver whose averaging is over keeps its offset in the next cycle. *)
Lemma offset_changes_only_while_zeroing_witness :
  let s : @Sys exact_platform :=
    reads 1 (settled_example 0 (frame 5 0 ++ frame 6 0)) in
  has_flag (self s) STATUS_ZEROING = false
  /\ offset (self (snd (read s))) = offset (self s).
Proof.
  intros s.
  assert (H : has_flag (self s) STATUS_ZEROING = false)
    by (vm_compute; reflexivity).
  split; [exact H|].
  exact (proj1 (offset_changes_only_while_zeroing s H)).
Defined.


(** The accumulator 0xfffffe, read as -2, is recovered modulo 2^24. *)
Lemma extend_sign_round_trip_witness :
  0 <= 0xfffffe < 2 ^ 24
  /\ extend_sign 0xfffffe mod 2 ^ 24 = 0xfffffe.
Proof.
  assert (H : 0 <= 0xfffffe < 2 ^ 24)
    by (vm_compute; split; [discriminate | reflexivity]).
  split; [exact H|].
  exact (proj1 (extend_sign_round_trip 0xfffffe H)).
Defined.

(** A nominal cycle with the filter off commits gain * (5 - offset). *)
Lemma nominal_cycle_commits_witness :
  let s : @Sys exact_platform := settled_example 0 (frame 5 0) in
  line_level s = false
  /\ cycle_bit25 s = true
  /\ status (self (snd (read s))) = STATUS_NOMINAL
  /\ num_ltb (of_int 0) (dfs (self s)) && num_ltb (dfs (self s)) (of_int 1) = false
  /\ value (self (snd (read s)))
     = num_mul (gain (self s))
         (of_int (cycle_data s - offset (self (snd (read s))))).
Proof.
  intros s.
  assert (H1 : line_level s = false) by (vm_compute; reflexivity).
  assert (H2 : cycle_bit25 s = true) by (vm_compute; reflexivity).
  assert (H3 : status (self (snd (read s))) = STATUS_NOMINAL)
    by (vm_compute; reflexivity).
  assert (H4 : num_ltb (of_int 0) (dfs (self s))
               && num_ltb (dfs (self s)) (of_int 1) = false)
    by (vm_compute; reflexivity).
  split; [exact H1|]. split; [exact H2|]. split; [exact H3|]. split; [exact H4|].
  exact (proj1 (nominal_cycle_commits s H1 H2 H3) H4).
Defined.

(** A poll on a line that is low. *)
Lemma data_ready_when_low_witness :
  line_level (settled_example 50 (frame 5 0)) = false
  /\ fst (data_ready (settled_example 50 (frame 5 0))) = Ok true.
Proof.
  assert (H : line_level (settled_example 50 (frame 5 0)) = false)
    by (vm_compute; reflexivity).
  split; [exact H|].
  exact (proj1 (data_ready_when_low _ H)).
Defined.

(** A poll on a line that is high. *)
Lemma data_ready_when_high_witness :
  line_level (settled_example 50 []) = true
  /\ fst (data_ready (settled_example 50 [])) = Ok false.
Proof.
  assert (H : line_level (settled_example 50 []) = true)
    by (vm_compute; reflexivity).
  split; [exact H|].
  exact (proj1 (data_ready_when_high _ H)).
Defined.

(** Three polls on a line that stays high. *)
Lemma wait_data_ready_times_out_witness :
  (forall k, (k < Z.to_nat 3)%nat ->
     dout (world (settled_example 50 []))
       (sampled (world (settled_example 50 [])) + k)%nat = true)
  /\ fst (wait_data_ready 3 (settled_example 50 [])) = Ok false.
Proof.
  assert (H : forall k, (k < Z.to_nat 3)%nat ->
     dout (world (settled_example 50 []))
       (sampled (world (settled_example 50 [])) + k)%nat = true)
    by (intros k _; apply line_nil_high).
  split; [exact H|].
  exact (proj1 (wait_data_ready_times_out 3 _ H)).
Defined.

(** A line that goes low at the third poll. *)
Lemma wait_data_ready_returns_at_first_low_witness :
  let s : @Sys exact_platform := settled_example 50 [true; true; false] in
  (2 < Z.to_nat 5)%nat
  /\ (forall j, (j < 2)%nat -> dout (world s) (sampled (world s) + j)%nat = true)
  /\ dout (world s) (sampled (world s) + 2)%nat = false
  /\ fst (wait_data_ready 5 s) = Ok true.
Proof.
  intros s.
  assert (H1 : (2 < Z.to_nat 5)%nat) by (vm_compute; lia).
  assert (H2 : forall j, (j < 2)%nat ->
                 dout (world s) (sampled (world s) + j)%nat = true).
  { intros j Hj. destruct j as [|[|j]]; [reflexivity | reflexivity | lia]. }
  assert (H3 : dout (world s) (sampled (world s) + 2)%nat = false)
    by (vm_compute; reflexivity).
  split; [exact H1|]. split; [exact H2|]. split; [exact H3|].
  exact (proj1 (wait_data_ready_returns_at_first_low 5 s 2 H1 H2 H3)).
Defined.

(** The settle timer of a freshly constructed driver expires. *)
Lemma settle_timer_expires_once_witness :
  exists s1 : @Sys exact_platform,
    expire_settled_timer (constructed []) = Some s1
    /\ has_flag (self s1) STATUS_NOT_SETTLED = false.
Proof.
  eexists. split.
  - vm_compute. reflexivity.
  - refine (proj1 (settle_timer_expires_once (constructed []) _ _)).
    vm_compute. reflexivity.
Defined.

(** The timeout timer armed by a poll expires. *)
Lemma data_ready_timer_expires_once_witness :
  expire_data_ready_timer timeout_armed = Some timeout_expired
  /\ has_flag (self timeout_expired) STATUS_DATA_READY_TIMEOUT = true.
Proof.
  assert (H : expire_data_ready_timer timeout_armed = Some timeout_expired)
    by (vm_compute; reflexivity).
  split; [exact H|].
  exact (proj1 (data_ready_timer_expires_once _ _ H)).
Defined.


(** The code 3 is refused. *)
Lemma illegal_code_is_rejected_witness :
  3 <> GAIN_128 /\ 3 <> GAIN_64 /\ 3 <> GAIN_32
  /\ set_gain 3 (constructed []) = (Raise (ValueError 3), constructed []).
Proof.
  assert (H1 : 3 <> GAIN_128) by (vm_compute; discriminate).
  assert (H2 : 3 <> GAIN_64) by (vm_compute; discriminate).
  assert (H3 : 3 <> GAIN_32) by (vm_compute; discriminate).
  split; [exact H1|]. split; [exact H2|]. split; [exact H3|].
  exact (proj1 (illegal_code_is_rejected 3 (constructed []) 2 3
                  (fresh_world []) H1 H2 H3)).
Defined.

(** Asking a new driver for GAIN_128 changes nothing. *)
Lemma set_gain_same_code_is_noop_witness :
  (configuration (self (constructed [])) = GAIN_128
   \/ configuration (self (constructed [])) = GAIN_64
   \/ configuration (self (constructed [])) = GAIN_32)
  /\ set_gain (configuration (self (constructed []))) (constructed [])
     = (Ok false, constructed []).
Proof.
  assert (H : configuration (self (constructed [])) = GAIN_128
              \/ configuration (self (constructed [])) = GAIN_64
              \/ configuration (self (constructed [])) = GAIN_32)
    by (left; vm_compute; reflexivity).
  split; [exact H|].
  exact (set_gain_same_code_is_noop (constructed []) H).
Defined.

(** Switching a settled driver to GAIN_64. *)
Lemma set_gain_new_code_unsettles_witness :
  let s : @Sys exact_platform := settled_example 50 (false :: frame 5 2) in
  (GAIN_64 = GAIN_128 \/ GAIN_64 = GAIN_64 \/ GAIN_64 = GAIN_32)
  /\ GAIN_64 <> configuration (self s)
  /\ fst (set_gain GAIN_64 s) = Ok true.
Proof.
  intros s.
  assert (H1 : GAIN_64 = GAIN_128 \/ GAIN_64 = GAIN_64 \/ GAIN_64 = GAIN_32)
    by (right; left; reflexivity).
  assert (H2 : GAIN_64 <> configuration (self s)) by (vm_compute; discriminate).
  split; [exact H1|]. split; [exact H2|].
  exact (proj1 (set_gain_new_code_unsettles GAIN_64 s H1 H2)).
Defined.

(** Switching to GAIN_64 while the chip never gets ready. *)
Lemma set_gain_without_ready_chip_witness :
  let s : @Sys exact_platform := settled_example 50 [] in
  (GAIN_64 = GAIN_128 \/ GAIN_64 = GAIN_64 \/ GAIN_64 = GAIN_32)
  /\ GAIN_64 <> configuration (self s)
  /\ (forall k, (k <= Z.to_nat (@DATA_READY_TIMEOUT exact_platform))%nat ->
        dout (world s) (sampled (world s) + k)%nat = true)
  /\ clock_pulses (trace (world (snd (set_gain GAIN_64 s))))
     = clock_pulses (trace (world s)).
Proof.
  intros s.
  assert (H1 : GAIN_64 = GAIN_128 \/ GAIN_64 = GAIN_64 \/ GAIN_64 = GAIN_32)
    by (right; left; reflexivity).
  assert (H2 : GAIN_64 <> configuration (self s)) by (vm_compute; discriminate).
  assert (H3 : forall k, (k <= Z.to_nat (@DATA_READY_TIMEOUT exact_platform))%nat ->
                 dout (world s) (sampled (world s) + k)%nat = true)
    by (intros k _; apply line_nil_high).
  split; [exact H1|]. split; [exact H2|]. split; [exact H3|].
  exact (proj1 (proj2 (proj2 (set_gain_without_ready_chip GAIN_64 s H1 H2 H3)))).
Defined.

(** A driver constructed on pins 2 and 3 with GAIN_32. *)
Lemma constructor_postcondition_witness :
  (GAIN_32 = GAIN_128 \/ GAIN_32 = GAIN_64 \/ GAIN_32 = GAIN_32)
  /\ fst (@__init__ exact_platform 2 3 GAIN_32 (fresh_world []))
     = Ok (mkHx711 (Z.lor STATUS_NOT_SETTLED STATUS_ZEROING) 2 3 GAIN_128 None
             (Some (mkTimer SETTLING_TIME SettledTimeout true))
             0 (of_int 1) (of_int 0) 50 (of_int 0) 0 0).
Proof.
  assert (H : GAIN_32 = GAIN_128 \/ GAIN_32 = GAIN_64 \/ GAIN_32 = GAIN_32)
    by (right; right; reflexivity).
  split; [exact H|].
  rewrite (constructor_postcondition 2 3 GAIN_32 (fresh_world []) H).
  reflexivity.
Defined.

(** Switching to GAIN_64 with a chip that is ready: 27 pulses. *)
Lemma set_gain_pushes_new_code_witness :
  let s : @Sys exact_platform := settled_example 50 (false :: frame 5 2) in
  (GAIN_64 = GAIN_128 \/ GAIN_64 = GAIN_64 \/ GAIN_64 = GAIN_32)
  /\ GAIN_64 <> configuration (self s)
  /\ (0 < Z.to_nat (@DATA_READY_TIMEOUT exact_platform))%nat
  /\ (forall j, (j < 0)%nat -> dout (world s) (sampled (world s) + j)%nat = true)
  /\ dout (world s) (sampled (world s) + 0)%nat = false
  /\ dout (world s) (sampled (world s) + 0 + 1)%nat = false
  /\ dout (world s) (sampled (world s) + 0 + 26)%nat = true
  /\ clock_pulses (trace (world (snd (set_gain GAIN_64 s))))
     = (clock_pulses (trace (world s)) + 25 + Z.to_nat GAIN_64)%nat.
Proof.
  intros s.
  assert (H1 : GAIN_64 = GAIN_128 \/ GAIN_64 = GAIN_64 \/ GAIN_64 = GAIN_32)
    by (right; left; reflexivity).
  assert (H2 : GAIN_64 <> configuration (self s)) by (vm_compute; discriminate).
  assert (H3 : (0 < Z.to_nat (@DATA_READY_TIMEOUT exact_platform))%nat) by (vm_compute; lia).
  assert (H4 : forall j, (j < 0)%nat ->
                 dout (world s) (sampled (world s) + j)%nat = true)
    by (intros j Hj; lia).
  assert (H5 : dout (world s) (sampled (world s) + 0)%nat = false)
    by (vm_compute; reflexivity).
  assert (H6 : dout (world s) (sampled (world s) + 0 + 1)%nat = false)
    by (vm_compute; reflexivity).
  assert (H7 : dout (world s) (sampled (world s) + 0 + 26)%nat = true)
    by (vm_compute; reflexivity).
  split; [exact H1|]. split; [exact H2|]. split; [exact H3|]. split; [exact H4|].
  split; [exact H5|]. split; [exact H6|]. split; [exact H7|].
  exact (proj2 (proj2 (set_gain_pushes_new_code GAIN_64 s 0 H1 H2 H3 H4 H5 H6 H7))).
Defined.
